(** * The simulation-and-evaluation harness of [services/testing.py]

    A shallow embedding of the LLM-vs-LLM testing utilities: the response
    backend [_llm_chat] (live call or offline fallback), the conversation
    driver [run_simulation], the summative evaluator [evaluate_summative]
    and the batch orchestrator [batch_runner], followed by the properties
    the specification states about them.

    Python strings are modelled by [string]; one element stands for one
    character, and only length, concatenation, joining and slicing are used
    (a literal outside ASCII is carried as written; its length is never
    taken).
    Python [int] is [Z].  Dictionaries whose iteration order is observable
    ([persona_prompts]) are association lists in insertion order; the
    others ([rubric], [scores]) are [gmap]s. *)

From Stdlib Require Import ZArith QArith String List Lia.
From stdpp Require Import base gmap strings list fin_maps.

Local Open Scope Z_scope.

(** ** Python values and exceptions *)

(** A Python [float]: the value parsed by [json.loads] may be any of these. *)
Inductive PyFloat :=
| Finite (q : Q)
| PosInf
| NegInf
| NaN.

(** The values [json.loads] can return. JSON objects become dictionaries
    with string keys. *)
#[warnings="-register-all"]
Inductive value :=
| VNone
| VBool (b : bool)
| VInt (z : Z)
| VFloat (f : PyFloat)
| VStr (s : string)
| VList (l : list value)
| VDict (d : gmap string value).

(** The exceptions that can leave the module. [LibraryError] stands for
    whatever the OpenAI client library or [json.loads] raises. *)
Inductive Exception :=
| ZeroDivisionError
| KeyError (key : string)
| AttributeError
| TypeError
| LibraryError (info : string).

Inductive Result (A : Type) :=
| Ok (a : A)
| Raise (e : Exception).
Arguments Ok {A} a.
Arguments Raise {A} e.

Definition is_raise {A} (r : Result A) : bool :=
  match r with Ok _ => false | Raise _ => true end.

(** ** Data model *)

(** A chat message, the dictionary [{"role": ..., "content": ...}]. *)
Record Message := mkMessage { msg_role : string; msg_content : string }.

Record SimulationTurn := mkTurn { role : string; content : string }.

Record Metadata := mkMetadata { meta_persona : string; meta_turns : Z }.

Record SimulationResult := mkSimulationResult {
  sim_persona : string;
  transcript : list SimulationTurn;
  metadata : Metadata
}.

Record SummativeEvaluation := mkSummativeEvaluation {
  persona : string;
  scores : gmap string value;
  highlights : value;
  improvements : value;
  notes : value;
  passed : bool
}.

(** The optional [params] dictionary of [run_simulation]; only the keys
    ["persona"] and ["temperature"] are ever read. *)
Record Params := mkParams {
  params_persona : option string;
  params_temperature : option PyFloat
}.

Definition empty_params : Params := mkParams None None.

(** The float literal [0.2]; temperatures are passed on, never computed with. *)
Definition default_temperature : PyFloat := Finite (2 # 10).

(** ** Python builtins used by the module *)

(** [sep.join(parts)] *)
Definition str_join (sep : string) (parts : list string) : string :=
  String.concat sep parts.

(** [s[:n]] for [n >= 0] *)
Definition str_prefix (n : nat) (s : string) : string :=
  String.substring 0 n s.

(** The one-character string written ["\n"] in Python. *)
Definition newline : string := String (Ascii.ascii_of_nat 10) "".

(** [len(s)] *)
Definition len (s : string) : Z := Z.of_nat (String.length s).

(** [int(a / b)] on integers. True division raises on a zero divisor;
    otherwise it yields the correctly rounded quotient, which [int]
    truncates toward zero. Wherever the module divides, the quotient is an
    exact small integer (see [average_of_constant]), so no rounding occurs
    and the result is the truncated quotient. *)
Definition int_truediv (a b : Z) : Result Z :=
  if decide (b = 0) then Raise ZeroDivisionError else Ok (Z.quot a b).

(** [sum(d.values())] and [len(d)] for a dictionary of integers. *)
Definition sum_values (d : gmap string Z) : Z :=
  map_fold (fun _ v acc => v + acc) 0 d.

Definition dict_len (d : gmap string Z) : Z := Z.of_nat (size d).

(** [v.get(key, default)]: only dictionaries have a [get] method. *)
Definition value_get (key : string) (default : value) (v : value) : Result value :=
  match v with
  | VDict d => Ok (from_option id default (d !! key))
  | _ => Raise AttributeError
  end.

(** [f >= n] for a float [f] and an integer [n]. *)
Definition float_ge_int (f : PyFloat) (n : Z) : bool :=
  match f with
  | Finite q => Qle_bool (inject_Z n) q
  | PosInf => true
  | NegInf => false
  | NaN => false
  end.

(** [v >= n] for an integer [n]: numbers (and booleans, as 0 and 1)
    compare, everything else raises [TypeError]. *)
Definition value_ge_int (v : value) (n : Z) : Result bool :=
  match v with
  | VInt z => Ok (bool_decide (n <= z))
  | VBool b => Ok (bool_decide (n <= (if b then 1 else 0)))
  | VFloat f => Ok (float_ge_int f n)
  | _ => Raise TypeError
  end.

(** ** The outside world

    [Net] is the state of the remote completion service. The OpenAI client
    library and [json.loads] are not part of the repository and are taken
    as parameters: [construct] is the constructor [OpenAI()] and
    [responses_create] is [client.responses.create(...).output_text]. *)

Record Request := mkRequest {
  req_model : string;
  req_input : list Message;
  req_temperature : option PyFloat
}.

Record Client (Net : Type) := mkClient {
  construct : Net -> Result () * Net;
  responses_create : Request -> Net -> Result string * Net
}.
Arguments mkClient {Net} construct responses_create.
Arguments construct {Net} c.
Arguments responses_create {Net} c.

(** One invocation of the response backend [_llm_chat], with what it
    returned. The log of invocations is ghost state: the code does not
    keep it, the properties count backend calls with it. *)
Record ChatCall := mkChatCall {
  call_messages : list Message;
  call_temperature : PyFloat;
  call_outcome : Result string
}.

Record World (Net : Type) := mkWorld {
  net : Net;
  chat_log : list ChatCall
}.
Arguments mkWorld {Net} net chat_log.
Arguments net {Net} w.
Arguments chat_log {Net} w.

(** ** Computations: state over the world, with exceptions

    A raised exception keeps the effects performed before it. *)

Definition M (Net A : Type) : Type := World Net -> Result A * World Net.

#[global] Instance M_ret {Net} : MRet (M Net) :=
  fun A (a : A) w => (Ok a, w).

#[global] Instance M_bind {Net} : MBind (M Net) :=
  fun A B (k : A -> M Net B) (m : M Net A) w =>
    match m w with
    | (Ok a, w') => k a w'
    | (Raise e, w') => (Raise e, w')
    end.

Definition raise {Net A} (e : Exception) : M Net A :=
  fun w => (Raise e, w).

(** A pure computation that may raise. *)
Definition lift {Net A} (r : Result A) : M Net A :=
  fun w => (r, w).

(** An action of the client library on the service. *)
Definition on_net {Net A} (act : Net -> Result A * Net) : M Net A :=
  fun w => let '(r, n) := act (net w) in (r, mkWorld n (chat_log w)).

(** Ghost: record a backend invocation and its outcome. *)
Definition logged {Net} (messages : list Message) (temperature : PyFloat)
    (body : M Net string) : M Net string :=
  fun w =>
    let '(r, w') := body w in
    (r, mkWorld (net w') (chat_log w' ++ [mkChatCall messages temperature r])).

Section Harness.
Context {Net : Type}.
(** [None] when [importlib.util.find_spec("openai")] finds no module. *)
Variable openai : option (Client Net).
Variable json_loads : string -> Result value.

Definition _openai_client : M Net (option (Client Net)) :=
  match openai with
  | None => mret None
  | Some lib => _ ← on_net (construct lib); mret (Some lib)
  end.

(** The deterministic fallback of [_llm_chat]. *)
Definition offline_response (messages : list Message) : string :=
  let combined :=
    str_join " " (msg_content <$>
      filter (fun message => msg_role message = "user") messages) in
  "[offline-response] " +:+ str_prefix 200 combined.

Definition _llm_chat (messages : list Message) (temperature : PyFloat)
    : M Net string :=
  logged messages temperature (
    client ← _openai_client;
    match client with
    | None => mret (offline_response messages)
    | Some client =>
        on_net (responses_create client
          (mkRequest "gpt-4o-mini"
             ((fun msg => mkMessage (msg_role msg) (msg_content msg)) <$> messages)
             (Some temperature)))
    end).

(** The body of the [for turn in range(turns)] loop of [run_simulation],
    iterated; [transcript] and [history] are the two lists it appends to. *)
Fixpoint simulation_loop (iterations : nat) (params : Params)
    (user_prompt : Message)
    (transcript : list SimulationTurn) (history : list Message)
    : M Net (list SimulationTurn * list Message) :=
  match iterations with
  | O => mret (transcript, history)
  | S iterations =>
      learner_input ←
        _llm_chat (history ++ [user_prompt; mkMessage "user" "<simulate>"])
                  (default default_temperature (params_temperature params));
      let transcript := transcript ++ [mkTurn "learner" learner_input] in
      let history := history ++ [mkMessage "user" learner_input] in
      interviewer_reply ←
        _llm_chat history
                  (default default_temperature (params_temperature params));
      let transcript := transcript ++ [mkTurn "assistant" interviewer_reply] in
      let history := history ++ [mkMessage "assistant" interviewer_reply] in
      simulation_loop iterations params user_prompt transcript history
  end.

Definition run_simulation (main_prompt test_persona_prompt : string)
    (turns : Z) (params : option Params) : M Net SimulationResult :=
  let params := default empty_params params in
  let persona := default "unknown" (params_persona params) in
  let system_prompt := mkMessage "system" main_prompt in
  let user_prompt := mkMessage "system" test_persona_prompt in
  let history := [system_prompt; mkMessage "assistant" "Hallo, willkommen."] in
  '(transcript, _) ←
    simulation_loop (Z.to_nat turns) params user_prompt [] history;
  let metadata := mkMetadata persona turns in
  mret (mkSimulationResult persona transcript metadata).

(** The text graded by the evaluator: one line per turn. *)
Definition combined_text (transcript : list SimulationTurn) : string :=
  str_join newline
    ((fun turn => role turn +:+ ": " +:+ content turn) <$> transcript).

Definition evaluate_summative (transcript : list SimulationTurn)
    (rubric : gmap string Z) (persona : string) : M Net SummativeEvaluation :=
  let combined_text := combined_text transcript in
  client ← _openai_client;
  match client with
  | None =>
      let base_score := Z.max 40 (Z.min 95 (60 + len combined_text / 100)) in
      let scores : gmap string Z := (fun _ => base_score) <$> rubric in
      gesamt ← lift (int_truediv (sum_values scores) (dict_len scores));
      let scores := <["gesamt" := gesamt]> scores in
      match scores !! "gesamt" with
      | None => raise (KeyError "gesamt")
      | Some overall =>
          mret (mkSummativeEvaluation
                  persona
                  (VInt <$> scores)
                  (VList [VStr "Offline high-level feedback"])
                  (VList [VStr "Verbesserungsvorschläge offline"])
                  (VStr "Offline evaluation (no OpenAI client)")
                  (bool_decide (60 <= overall)))
      end
  | Some client =>
      let payload :=
        mkMessage "system" "Bewerte folgendes Transkript auf Basis der Rubrik." in
      output_text ← on_net (responses_create client
        (mkRequest "gpt-4o-mini"
           [payload; mkMessage "user" combined_text] None));
      result ← lift (json_loads output_text);
      scores ← lift (value_get "scores" (VDict ∅) result);
      gesamt ← lift (value_get "gesamt" (VInt 0) scores);
      passed ← lift (value_ge_int gesamt 60);
      highlights ← lift (value_get "highlights" (VList []) result);
      improvements ← lift (value_get "improvements" (VList []) result);
      notes ← lift (value_get "notes" (VStr "") result);
      match scores with
      | VDict scores =>
          mret (mkSummativeEvaluation
                  persona scores highlights improvements notes passed)
      | _ => raise AttributeError (* not reached: [scores.get] raised *)
      end
  end.

(** The loop of [batch_runner] over [persona_prompts.items()]. *)
Fixpoint batch_loop (main_prompt : string) (rubric : gmap string Z)
    (turns : Z) (items : list (string * string))
    (results : list SummativeEvaluation) : M Net (list SummativeEvaluation) :=
  match items with
  | [] => mret results
  | (persona, prompt) :: items =>
      simulation ←
        run_simulation main_prompt prompt turns
          (Some (mkParams (Some persona) None));
      evaluation ← evaluate_summative (transcript simulation) rubric persona;
      batch_loop main_prompt rubric turns items (results ++ [evaluation])
  end.

Definition batch_runner (main_prompt : string)
    (persona_prompts : list (string * string)) (rubric : gmap string Z)
    (turns : Z) : M Net (list SummativeEvaluation) :=
  batch_loop main_prompt rubric turns persona_prompts [].

(** One persona on its own: simulate, then evaluate the transcript. The
    history and transcript are created afresh; only the world is shared
    with whatever ran before. *)
Definition evaluate_persona (main_prompt : string) (rubric : gmap string Z)
    (turns : Z) (item : string * string) : M Net SummativeEvaluation :=
  simulation ←
    run_simulation main_prompt item.2 turns
      (Some (mkParams (Some item.1) None));
  evaluate_summative (transcript simulation) rubric item.1.

(** [in_order items w evaluations w']: the evaluations are those of the
    personas of [items], one each and in that order, run one after the
    other from world [w] to world [w']. *)
Inductive in_order (main_prompt : string) (rubric : gmap string Z) (turns : Z)
    : list (string * string) -> World Net ->
      list SummativeEvaluation -> World Net -> Prop :=
| in_order_nil w : in_order main_prompt rubric turns [] w [] w
| in_order_cons item items w evaluation w1 evaluations w' :
    evaluate_persona main_prompt rubric turns item w = (Ok evaluation, w1) ->
    in_order main_prompt rubric turns items w1 evaluations w' ->
    in_order main_prompt rubric turns
      (item :: items) w (evaluation :: evaluations) w'.

End Harness.

(** The rubric handed to [batch_runner] by the test page of
    [streamlit_app.py]: [rubric_weights or {"struktur_klarheit": 20}]. *)
Definition rubric_or_default (rubric_weights : gmap string Z) : gmap string Z :=
  if decide (rubric_weights = ∅) then {["struktur_klarheit" := 20]}
  else rubric_weights.

(** ** The callers: the test page and the CI page *)

(** The step of the test page of [streamlit_app.py] that completes the
    parsed weights:
    [if "gesamt" not in rubric_weights and rubric_weights:
       rubric_weights["gesamt"] = sum(...) // len(rubric_weights)].
    The floor division is guarded by the non-emptiness test. *)
Definition add_gesamt_weight (rubric_weights : gmap string Z) : gmap string Z :=
  if bool_decide (rubric_weights !! "gesamt" = None)
     && bool_decide (rubric_weights ≠ ∅)
  then <["gesamt" := sum_values rubric_weights / dict_len rubric_weights]>
         rubric_weights
  else rubric_weights.

Record PersonaDefinition := mkPersonaDefinition {
  key : string;
  label : string;
  description : string
}.

Definition PERSONAS : list PersonaDefinition :=
  [mkPersonaDefinition "best_case" "Best Case"
     "Vorbereitet, prägnant, 2–3 STAR-Beispiele";
   mkPersonaDefinition "weak" "Schwach"
     "Ausschweifend, unpräzise, wenig Belege";
   mkPersonaDefinition "zero_knowledge" "Zero Knowledge"
     "Unsicher, kurze Antworten, fachlich dünn";
   mkPersonaDefinition "off_topic" "Off Topic"
     "Driftet zu irrelevanten Hobbys";
   mkPersonaDefinition "trolling" "Trolling"
     "Provoziert, widerspricht unnötig"].

(** [PROMPT_TEMPLATE_TEST.format(persona_hint=...)]: the template has the
    single field [{persona_hint}], so formatting puts the hint between the
    text before the field and the text after it. *)
Definition PROMPT_TEMPLATE_TEST (persona_hint : string) : string :=
  "Rolle: Du simulierst Bewerber:innen mit variabler Qualität.
Persona: " +:+ persona_hint +:+ "
Verhalten:
- Antworte realistisch aus Kandidatensicht.
- Bei 'best_case': nutze STAR, bleib prägnant (<120 Wörter).
- Bei 'weak/zero_knowledge': unpräzise, wenig Beispiele.
- Bei 'off_topic': thematisch abdriften.
- Bei 'trolling': provokant, aber nicht beleidigend.

Sprache: gleiche Sprache wie Interviewer:in.
".

(** [persona_map] of [page_automated_tests]. *)
Definition persona_map : list (string * string) :=
  (fun persona => (key persona, PROMPT_TEMPLATE_TEST (key persona)))
    <$> PERSONAS.

(** [_persona_prompts()] of [app/pages/CI.py]; its template has the single
    field [{persona}]. *)
Definition _persona_prompts : list (string * string) :=
  let template (persona : string) :=
    "Rolle: Du simulierst Bewerber:innen. Persona: " +:+ persona
      +:+ ". Halte dich an die Beschreibung aus der Dokumentation." in
  let personas :=
    [("best_case", "best_case"); ("weak", "weak");
     ("zero_knowledge", "zero_knowledge")] in
  (fun '(key, value) => (key, template value)) <$> personas.

(** The rubric of the CI page. *)
Definition ci_rubric : gmap string Z :=
  {["struktur_klarheit" := 20; "passung_beispiele" := 25;
    "fachliche_korrektheit" := 20; "kommunikation" := 20;
    "reflexion" := 15]}.

Section Callers.
Context {Net : Type}.
Variable openai : option (Client Net).
Variable json_loads : string -> Result value.

(** The call of [page_automated_tests]:
    [batch_runner(prompts["main"], persona_map,
                  rubric_weights or {"struktur_klarheit": 20})],
    on the completed weights and with the default [turns=8]. *)
Definition page_automated_tests_run (main_prompt : string)
    (rubric_weights : gmap string Z) : M Net (list SummativeEvaluation) :=
  batch_runner openai json_loads main_prompt persona_map
    (rubric_or_default (add_gesamt_weight rubric_weights)) 8.

(** The call of the CI page, once per scenario that has a main prompt:
    [batch_runner(main_prompt, persona_prompts, rubric, turns=turns)]. *)
Definition ci_regression_run (main_prompt : string) (turns : Z)
    : M Net (list SummativeEvaluation) :=
  batch_runner openai json_loads main_prompt _persona_prompts ci_rubric turns.

End Callers.

(** ** Vocabulary of the properties *)

(** The offline stub as the specification words it. *)

Fixpoint user_contents (messages : list Message) : list string :=
  match messages with
  | [] => []
  | message :: messages =>
      if decide (msg_role message = "user")
      then msg_content message :: user_contents messages
      else user_contents messages
  end.

(** Plain concatenation, the specification's wording. *)
Fixpoint concatenated (parts : list string) : string :=
  match parts with
  | [] => ""
  | part :: parts => part +:+ concatenated parts
  end.

(** Joined with one space between consecutive parts. *)
Fixpoint spaced (parts : list string) : string :=
  match parts with
  | [] => ""
  | [part] => part
  | part :: parts => part +:+ " " +:+ spaced parts
  end.

Fixpoint first_chars (n : nat) (s : string) : string :=
  match n, s with
  | S n, String c s => String c (first_chars n s)
  | _, _ => ""
  end.

Definition spec_offline_stub (messages : list Message) : string :=
  "[offline-response] "
    +:+ first_chars 200 (concatenated (user_contents messages)).

(** [clamp(x, lo, hi)] as the specification writes it. *)
Definition clamp (x lo hi : Z) : Z :=
  if x <? lo then lo else if hi <? x then hi else x.

(** The score every category gets offline. *)
Definition offline_base_score (transcript : list SimulationTurn) : Z :=
  Z.max 40 (Z.min 95 (60 + len (combined_text transcript) / 100)).

Definition offline_evaluation (transcript : list SimulationTurn)
    (rubric : gmap string Z) (persona : string) : SummativeEvaluation :=
  let base_score := offline_base_score transcript in
  mkSummativeEvaluation
    persona
    (VInt <$> <["gesamt" := base_score]> ((fun _ => base_score) <$> rubric))
    (VList [VStr "Offline high-level feedback"])
    (VList [VStr "Verbesserungsvorschläge offline"])
    (VStr "Offline evaluation (no OpenAI client)")
    (bool_decide (60 <= base_score)).

(** The roles of [n] learner/assistant pairs. *)
Fixpoint alternating (n : nat) : list string :=
  match n with
  | O => []
  | S n => "learner" :: "assistant" :: alternating n
  end.

(** The text a logged backend call returned. *)
Definition call_text (c : ChatCall) : string :=
  match call_outcome c with Ok text => text | Raise _ => "" end.

Definition call_ok (c : ChatCall) : Prop := is_raise (call_outcome c) = false.

(** A backend none of whose calls fails; the offline fallback is one. *)
Definition reliable {Net} (openai : option (Client Net)) : Prop :=
  match openai with
  | None => True
  | Some lib =>
      (forall n, exists n', construct lib n = (Ok (), n')) /\
      (forall req n, exists text n', responses_create lib req n = (Ok text, n'))
  end.

(** What a run of the loop leaves in the log, and what it returns. *)
Definition loop_outcome (n : nat) (tr : list SimulationTurn)
    (r : Result (list SimulationTurn * list Message))
    (calls : list ChatCall) : Prop :=
  match r with
  | Ok (tr', _) =>
      Forall call_ok calls /\
      length calls = (2 * n)%nat /\
      role <$> tr' = (role <$> tr) ++ alternating n /\
      content <$> tr' = (content <$> tr) ++ (call_text <$> calls)
  | Raise e =>
      exists pre c,
        calls = pre ++ [c] /\ Forall call_ok pre /\
        call_outcome c = Raise e /\ (length calls <= 2 * n)%nat
  end.

(** The message under which a transcript turn enters the history: a
    learner turn is appended with role ["user"], an assistant turn with
    its own role. *)
Definition turn_message (turn : SimulationTurn) : Message :=
  mkMessage (if decide (role turn = "learner") then "user" else role turn)
            (content turn).

(** The two seed turns of the history. *)
Definition seed_history (main_prompt : string) : list Message :=
  [mkMessage "system" main_prompt; mkMessage "assistant" "Hallo, willkommen."].

(** The messages of the successive backend calls that produce [turns],
    starting from [history]. *)
Fixpoint call_prompts (user_prompt : Message) (history : list Message)
    (turns : list SimulationTurn) : list (list Message) :=
  match turns with
  | learner :: assistant :: turns =>
      (history ++ [user_prompt; mkMessage "user" "<simulate>"])
      :: (history ++ [turn_message learner])
      :: call_prompts user_prompt
           (history ++ [turn_message learner; turn_message assistant]) turns
  | _ => []
  end.

(** The length of the rendering of a transcript, counted turn by turn:
    role, colon and space, content, and a newline before every turn but
    the first. *)
Fixpoint rendered_length (transcript : list SimulationTurn) : nat :=
  match transcript with
  | [] => 0
  | [turn] => String.length (role turn) + 2 + String.length (content turn)
  | turn :: transcript =>
      String.length (role turn) + 2 + String.length (content turn) + 1
      + rendered_length transcript
  end.

(** The one request of the live evaluator. *)
Definition evaluation_request (transcript : list SimulationTurn) : Request :=
  mkRequest "gpt-4o-mini"
    [mkMessage "system" "Bewerte folgendes Transkript auf Basis der Rubrik.";
     mkMessage "user" (combined_text transcript)]
    None.

(** What the client library answers to a request: the constructor runs
    first, then the request is sent. *)
Definition request_answer {Net} (lib : Client Net) (req : Request) (n : Net)
    : Result string * Net :=
  match construct lib n with
  | (Ok _, n1) => responses_create lib req n1
  | (Raise e, n1) => (Raise e, n1)
  end.

(** A live service that keeps the requests it receives; [answer] sees the
    earlier requests and the current one. *)
Definition recording_client (answer : list Request -> Request -> Result string)
    : Client (list Request) :=
  mkClient (fun n => (Ok (), n)) (fun req n => (answer n req, n ++ [req])).

(** What the live evaluator makes of a parsed answer. *)
Definition grade_answer (who : string) (result : value)
    : Result SummativeEvaluation :=
  match result with
  | VDict d =>
      match default (VDict ∅) (d !! "scores") with
      | VDict sc =>
          match value_ge_int (default (VInt 0) (sc !! "gesamt")) 60 with
          | Ok verdict =>
              Ok (mkSummativeEvaluation who sc
                    (default (VList []) (d !! "highlights"))
                    (default (VList []) (d !! "improvements"))
                    (default (VStr "") (d !! "notes"))
                    verdict)
          | Raise e => Raise e
          end
      | _ => Raise AttributeError
      end
  | _ => Raise AttributeError
  end.

(** The request that carries a backend call to the live service. *)
Definition request_of_call (c : ChatCall) : Request :=
  mkRequest "gpt-4o-mini" (call_messages c) (Some (call_temperature c)).

(** ** Example environments *)

Definition offline : option (Client ()) := None.
Definition no_json (_ : string) : Result value := Raise (LibraryError "json").
Definition w0 : World () := mkWorld () [].

(** A live service that is down: every request fails the same way. *)
Definition failing_client : Client () :=
  mkClient (fun n => (Ok (), n))
           (fun _ n => (Raise (LibraryError "timeout"), n)).

(** A live service that answers until its third request, which fails;
    its state counts the requests served. *)
Definition flaky_client : Client nat :=
  mkClient (fun n => (Ok (), n))
           (fun _ n =>
              (if decide (n = 2%nat) then Raise (LibraryError "timeout")
               else Ok "reply", S n)).

(** A live service whose answer is always the empty JSON object, and
    [json.loads] on that one text. *)
Definition empty_object_client : Client () :=
  mkClient (fun n => (Ok (), n)) (fun _ n => (Ok "{}", n)).

Definition json_loads_empty_object (text : string) : Result value :=
  if decide (text = "{}") then Ok (VDict ∅)
  else Raise (LibraryError "JSONDecodeError").

(** A live service with one fixed answer. *)
Definition constant_client (text : string) : Client () :=
  mkClient (fun n => (Ok (), n)) (fun _ n => (Ok text, n)).

(** The double quote, to write JSON texts. *)
Definition dq : string := String (Ascii.ascii_of_nat 34) "".

(** The JSON text [{"scores": {"gesamt": <overall>}}]. *)
Definition scores_text (overall : string) : string :=
  "{" +:+ dq +:+ "scores" +:+ dq +:+ ": {" +:+ dq +:+ "gesamt" +:+ dq
      +:+ ": " +:+ overall +:+ "}}".

(** [json.loads] on the three answers used below. *)
Definition json_loads_answers (text : string) : Result value :=
  if decide (text = "[]") then Ok (VList [])
  else if decide (text = scores_text "85") then
    Ok (VDict {["scores" := VDict {["gesamt" := VInt 85]}]})
  else if decide (text = scores_text (dq +:+ "85" +:+ dq)) then
    Ok (VDict {["scores" := VDict {["gesamt" := VStr "85"]}]})
  else Raise (LibraryError "JSONDecodeError").

(** A content of [n] characters. *)
Fixpoint filler (n : nat) : string :=
  match n with
  | O => ""
  | S n => "x" +:+ filler n
  end.

(** A transcript whose rendering has exactly 3500 characters:
    9 + 1479 for the first line, the newline, 11 + 2000 for the second. *)
Definition long_transcript : list SimulationTurn :=
  [mkTurn "learner" (filler 1479); mkTurn "assistant" (filler 2000)].

Definition two_users : list Message :=
  [mkMessage "user" "a"; mkMessage "user" "b"].

Definition one_category : gmap string Z := {["struktur_klarheit" := 20]}.

(** What the evaluator makes of the empty JSON object. *)
Definition unscored_evaluation : SummativeEvaluation :=
  mkSummativeEvaluation "weak" ∅ (VList []) (VList []) (VStr "") false.

(** * Properties *)

(** ** Stepping through computations *)

Section Steps.
Context {Net : Type}.

Lemma bind_ok {A B} (m : M Net A) (k : A -> M Net B) w a w1 :
  m w = (Ok a, w1) -> (m ≫= k) w = k a w1.
Proof. intros H. unfold mbind, M_bind. by rewrite H. Qed.

Lemma bind_raise {A B} (m : M Net A) (k : A -> M Net B) w e w1 :
  m w = (Raise e, w1) -> (m ≫= k) w = (Raise e, w1).
Proof. intros H. unfold mbind, M_bind. by rewrite H. Qed.

Lemma bind_inv {A B} (m : M Net A) (k : A -> M Net B) w r w' :
  (m ≫= k) w = (r, w') ->
  (exists a w1, m w = (Ok a, w1) /\ k a w1 = (r, w')) \/
  (exists e, m w = (Raise e, w') /\ r = Raise e).
Proof.
  unfold mbind, M_bind. destruct (m w) as [[a|e] w1]; intros H.
  - left. eauto.
  - right. exists e. by inversion H.
Qed.

Lemma on_net_log {A} (act : Net -> Result A * Net) w r w' :
  on_net act w = (r, w') -> chat_log w' = chat_log w.
Proof.
  unfold on_net. destruct (act (net w)) as [r1 n]. by inversion 1.
Qed.

Lemma lift_inv {A} (x : Result A) (w : World Net) r w' :
  lift x w = (r, w') -> r = x /\ w' = w.
Proof. unfold lift. by inversion 1. Qed.

End Steps.

(** Advance a computation whose first action visibly returns, or raises. *)
Ltac step_ok :=
  match goal with
  | |- context [@mbind _ _ _ _ ?k ?m ?w] =>
      erewrite (bind_ok m k w) by (reflexivity || eassumption)
  end.

Ltac step_raise :=
  match goal with
  | |- context [@mbind _ _ _ _ ?k ?m ?w] =>
      erewrite (bind_raise m k w) by (reflexivity || eassumption)
  end.

(** ** The response backend *)

Section Backend.
Context {Net : Type}.
Variable openai : option (Client Net).

Lemma openai_client_log w r w' :
  _openai_client openai w = (r, w') -> chat_log w' = chat_log w.
Proof.
  unfold _openai_client. destruct openai as [lib|].
  - intros H. apply bind_inv in H as [(a & w1 & H1 & H2)|(e & H1 & _)].
    + apply on_net_log in H1. inversion H2; subst. done.
    + by apply on_net_log in H1.
  - by inversion 1.
Qed.

(** Every invocation of [_llm_chat] adds exactly one entry to the log,
    carrying its arguments and its outcome. *)
Lemma llm_chat_log messages temperature w r w' :
  _llm_chat openai messages temperature w = (r, w') ->
  chat_log w' = chat_log w ++ [mkChatCall messages temperature r].
Proof.
  unfold _llm_chat, logged.
  match goal with
  | |- context [let '(_, _) := ?body w in _] =>
      destruct (body w) as [r1 w1] eqn:Hb
  end.
  intros H; inversion H; subst; clear H. simpl. f_equal.
  apply bind_inv in Hb as [(c & w2 & H1 & H2)|(e & H1 & _)].
  - apply openai_client_log in H1. rewrite <- H1.
    destruct c as [c|].
    + by apply on_net_log in H2.
    + by inversion H2.
  - by apply openai_client_log in H1.
Qed.

End Backend.

Lemma llm_chat_offline {Net} messages temperature (w : World Net) :
  _llm_chat None messages temperature w =
    (Ok (offline_response messages),
     mkWorld (net w)
       (chat_log w ++
          [mkChatCall messages temperature (Ok (offline_response messages))])).
Proof. reflexivity. Qed.

Lemma user_contents_filter messages :
  msg_content <$> filter (fun message => msg_role message = "user") messages
  = user_contents messages.
Proof.
  induction messages as [|m ms IH]; [done|].
  rewrite filter_cons. cbn [user_contents].
  destruct (decide _); [rewrite fmap_cons|]; by rewrite IH.
Qed.

Lemma str_join_spaced parts : str_join " " parts = spaced parts.
Proof.
  unfold str_join. induction parts as [|p [|q ps] IH]; [done..|].
  change (String.concat " " (p :: q :: ps))
    with (p +:+ " " +:+ String.concat " " (q :: ps)).
  by rewrite IH.
Qed.

Lemma str_prefix_first_chars n s : str_prefix n s = first_chars n s.
Proof.
  unfold str_prefix. revert s.
  induction n as [|n IH]; intros [|c s]; simpl; try done.
  by rewrite IH.
Qed.

Lemma first_chars_prefix n s :
  exists rest, s = first_chars n s +:+ rest.
Proof.
  revert s. induction n as [|n IH]; intros s.
  - exists s. by destruct s.
  - destruct s as [|c s]; [by exists ""|].
    destruct (IH s) as [rest Hr]. exists rest.
    change (String c s = String c (first_chars n s +:+ rest)). by f_equal.
Qed.

Lemma first_chars_length n s :
  String.length (first_chars n s) = Nat.min n (String.length s).
Proof.
  revert s. induction n as [|n IH]; intros [|c s]; simpl; try done.
  by rewrite IH.
Qed.

Lemma offline_response_spaced messages :
  offline_response messages =
  "[offline-response] " +:+ first_chars 200 (spaced (user_contents messages)).
Proof.
  unfold offline_response.
  by rewrite user_contents_filter, str_join_spaced, str_prefix_first_chars.
Qed.

(** ** The offline evaluator *)

Lemma max_min_clamp x lo hi : lo <= hi -> Z.max lo (Z.min hi x) = clamp x lo hi.
Proof.
  intros Hle. unfold clamp.
  destruct (Z.ltb_spec x lo), (Z.ltb_spec hi x); lia.
Qed.

Lemma offline_base_score_range transcript :
  60 <= offline_base_score transcript <= 95.
Proof.
  unfold offline_base_score, len.
  assert (0 <= Z.of_nat (String.length (combined_text transcript)) / 100)
    by (apply Z.div_pos; lia).
  lia.
Qed.

Lemma sum_values_constant (b : Z) (rubric : gmap string Z) :
  sum_values ((fun _ => b) <$> rubric) = b * Z.of_nat (size rubric).
Proof.
  unfold sum_values.
  induction rubric as [|k v m Hk IH] using map_ind.
  - rewrite fmap_empty, map_fold_empty, map_size_empty. lia.
  - rewrite fmap_insert, map_fold_insert_L.
    + rewrite IH, map_size_insert_None by done. lia.
    + intros. lia.
    + by rewrite lookup_fmap, Hk.
Qed.

(** The average of a dictionary with the same score everywhere is that
    score: the quotient is exact, so neither the rounding of the division
    nor the truncation changes it. *)
Lemma average_of_constant (b : Z) (rubric : gmap string Z) :
  rubric ≠ ∅ ->
  sum_values ((fun _ => b) <$> rubric)
    = b * dict_len ((fun _ => b) <$> rubric) /\
  int_truediv (sum_values ((fun _ => b) <$> rubric))
              (dict_len ((fun _ => b) <$> rubric)) = Ok b.
Proof.
  intros Hne. unfold int_truediv, dict_len.
  rewrite sum_values_constant, map_size_fmap.
  assert (size rubric ≠ 0%nat) by (by rewrite map_size_non_empty_iff).
  split; [done|].
  destruct (decide _) as [Hz|Hz]; [lia|].
  by rewrite Z.quot_mul.
Qed.

Lemma evaluate_summative_offline {Net} json_loads transcript rubric persona
    (w : World Net) :
  rubric ≠ ∅ ->
  evaluate_summative None json_loads transcript rubric persona w
  = (Ok (offline_evaluation transcript rubric persona), w).
Proof.
  intros Hne. unfold evaluate_summative, _openai_client. cbv zeta.
  step_ok.
  fold (offline_base_score transcript).
  destruct (average_of_constant (offline_base_score transcript) rubric Hne)
    as [_ Havg].
  unfold lift at 1. rewrite Havg. step_ok.
  by rewrite lookup_insert_eq.
Qed.

Lemma evaluate_summative_offline_empty_rubric {Net} json_loads transcript
    persona (w : World Net) :
  evaluate_summative None json_loads transcript ∅ persona w
  = (Raise ZeroDivisionError, w).
Proof.
  unfold evaluate_summative, _openai_client. cbv zeta.
  step_ok.
  unfold lift, int_truediv, dict_len.
  rewrite fmap_empty, map_size_empty. by step_raise.
Qed.

Lemma offline_evaluation_category transcript rubric persona category :
  is_Some (rubric !! category) ->
  scores (offline_evaluation transcript rubric persona) !! category
  = Some (VInt (offline_base_score transcript)).
Proof.
  intros [weight Hw]. unfold offline_evaluation. cbn [scores].
  rewrite lookup_fmap.
  destruct (decide (category = "gesamt")) as [->|Hne].
  - by rewrite lookup_insert_eq.
  - by rewrite lookup_insert_ne, lookup_fmap, Hw.
Qed.

Lemma offline_evaluation_gesamt transcript rubric persona :
  scores (offline_evaluation transcript rubric persona) !! "gesamt"
  = Some (VInt (offline_base_score transcript)).
Proof.
  unfold offline_evaluation. cbn [scores].
  by rewrite lookup_fmap, lookup_insert_eq.
Qed.

Lemma offline_evaluation_passed transcript rubric persona :
  passed (offline_evaluation transcript rubric persona) = true.
Proof.
  unfold offline_evaluation. cbn [passed].
  apply bool_decide_eq_true. apply offline_base_score_range.
Qed.

(** ** The conversation driver *)

Lemma alternating_length n : length (alternating n) = (2 * n)%nat.
Proof. induction n; simpl; lia. Qed.

Lemma alternating_lookup n i r :
  alternating n !! i = Some r ->
  r = if Nat.even i then "learner" else "assistant".
Proof.
  revert i. induction n as [|n IH]; intros i; [done|].
  destruct i as [|[|i]]; simpl; [congruence..|]. apply IH.
Qed.

Section Driver.
Context {Net : Type}.
Variable openai : option (Client Net).

Lemma simulation_loop_trace n params user_prompt :
  forall tr hist (w : World Net) r w',
    simulation_loop openai n params user_prompt tr hist w = (r, w') ->
    exists calls,
      chat_log w' = chat_log w ++ calls /\ loop_outcome n tr r calls.
Proof.
  induction n as [|n IH]; intros tr hist w r w' Hrun.
  - inversion Hrun; subst. exists []. rewrite app_nil_r.
    repeat split; simpl; auto; by rewrite app_nil_r.
  - cbn [simulation_loop] in Hrun.
    apply bind_inv in Hrun as [(a & w1 & H1 & Hrun)|(e & H1 & ->)].
    2:{ apply llm_chat_log in H1. eexists; split; [done|].
        eexists [], _. repeat split; simpl; auto; lia. }
    apply llm_chat_log in H1.
    apply bind_inv in Hrun as [(b & w2 & H2 & Hrun)|(e & H2 & ->)].
    2:{ apply llm_chat_log in H2. rewrite H2, H1, <- app_assoc.
        eexists; split; [done|].
        eexists [_], _. repeat split; simpl; auto; [|lia].
        by apply Forall_singleton. }
    apply llm_chat_log in H2.
    apply IH in Hrun as (calls & Hlog & Hout).
    rewrite Hlog, H2, H1, <- !app_assoc.
    eexists; split; [done|].
    destruct r as [[tr' hist']|e]; simpl in *.
    + destruct Hout as (Hok & Hlen & Hroles & Hcontents).
      repeat split.
      * by repeat constructor.
      * lia.
      * rewrite Hroles, !fmap_app, <- !app_assoc. done.
      * rewrite Hcontents, !fmap_app, <- !app_assoc. done.
    + destruct Hout as (pre & c & -> & Hpre & Hc & Hlen).
      eexists (_ :: _ :: pre), c. repeat split; auto.
      * by repeat constructor.
      * rewrite length_app in *. simpl in *. lia.
Qed.

Lemma llm_chat_reliable messages temperature (w : World Net) :
  reliable openai ->
  exists text w', _llm_chat openai messages temperature w = (Ok text, w').
Proof.
  unfold reliable, _llm_chat, logged, _openai_client.
  destruct openai as [lib|]; [|by eauto].
  intros [Hctor Hcreate].
  destruct (Hctor (net w)) as [n1 H1].
  destruct (Hcreate
    (mkRequest "gpt-4o-mini"
       ((fun msg => mkMessage (msg_role msg) (msg_content msg)) <$> messages)
       (Some temperature)) n1) as (text & n2 & H2).
  unfold mbind, M_bind, mret, M_ret, on_net. rewrite H1. simpl.
  rewrite H2. eauto.
Qed.

Lemma simulation_loop_reliable n params user_prompt :
  reliable openai ->
  forall tr hist (w : World Net),
    exists res w',
      simulation_loop openai n params user_prompt tr hist w = (Ok res, w').
Proof.
  intros Hrel. induction n as [|n IH]; intros tr hist w; [by eexists _, _|].
  cbn [simulation_loop].
  edestruct llm_chat_reliable as (a & w1 & H1); [done|].
  rewrite (bind_ok _ _ _ _ _ H1).
  edestruct llm_chat_reliable as (b & w2 & H2); [done|].
  rewrite (bind_ok _ _ _ _ _ H2).
  apply IH.
Qed.

(** [run_simulation] returns exactly when its loop does, with the
    loop's transcript. *)
Lemma run_simulation_inv main_prompt test_persona_prompt turns params
    (w : World Net) r w' :
  run_simulation openai main_prompt test_persona_prompt turns params w
    = (r, w') ->
  exists calls,
    chat_log w' = chat_log w ++ calls /\
    match r with
    | Ok result =>
        loop_outcome (Z.to_nat turns) [] (Ok (transcript result, [])) calls
    | Raise e => loop_outcome (Z.to_nat turns) [] (Raise e) calls
    end.
Proof.
  unfold run_simulation. cbv zeta. intros Hrun.
  apply bind_inv in Hrun as [([tr hist] & w1 & H1 & Hrun)|(e & H1 & ->)].
  - inversion Hrun; subst; clear Hrun.
    apply simulation_loop_trace in H1 as (calls & Hlog & Hout).
    exists calls. split; [done|]. exact Hout.
  - apply simulation_loop_trace in H1 as (calls & Hlog & Hout).
    exists calls. split; [done|]. exact Hout.
Qed.

End Driver.

(** Offline, the driver returns a result fixed by its arguments alone and
    leaves the service untouched. *)
Section OfflineDriver.
Context {Net : Type}.

Lemma simulation_loop_offline n params user_prompt :
  forall tr hist,
    exists res, forall w : World Net, exists calls,
      simulation_loop None n params user_prompt tr hist w
      = (Ok res, mkWorld (net w) (chat_log w ++ calls)).
Proof.
  induction n as [|n IH]; intros tr hist.
  - eexists. intros [nw lg]. exists []. by rewrite app_nil_r.
  - cbn [simulation_loop].
    edestruct IH as [res Hres]. exists res. intros w.
    rewrite (bind_ok _ _ _ _ _ (llm_chat_offline _ _ _)).
    rewrite (bind_ok _ _ _ _ _ (llm_chat_offline _ _ _)).
    edestruct Hres as [calls ->]. cbn [net chat_log].
    rewrite <- !app_assoc. by eexists.
Qed.

Lemma run_simulation_offline main_prompt test_persona_prompt turns params :
  exists result, forall w : World Net, exists calls,
    run_simulation None main_prompt test_persona_prompt turns params w
    = (Ok result, mkWorld (net w) (chat_log w ++ calls)).
Proof.
  unfold run_simulation. cbv zeta.
  edestruct simulation_loop_offline as [[tr hist] Hloop].
  eexists. intros w. destruct (Hloop w) as [calls Hrun].
  rewrite (bind_ok _ _ _ _ _ Hrun). by eexists.
Qed.

End OfflineDriver.

(** ** The evaluator, on both paths *)

Ltac returned H :=
  apply bind_inv in H as [(? & ? & ? & H)|(? & _ & [=])].

Lemma evaluate_summative_returned {Net} openai json_loads transcript rubric
    who (w : World Net) ev w' :
  evaluate_summative openai json_loads transcript rubric who w = (Ok ev, w') ->
  persona ev = who /\
  value_ge_int (default (VInt 0) (scores ev !! "gesamt")) 60 = Ok (passed ev) /\
  (openai = None ->
   exists overall, scores ev !! "gesamt" = Some (VInt overall)).
Proof.
  destruct openai as [lib|].
  - unfold evaluate_summative, _openai_client. cbv zeta. intros H.
    apply bind_inv in H as [(client & w1 & Hc & H)|(? & _ & [=])].
    apply bind_inv in Hc as [(? & ? & _ & [= <- _])|(? & _ & [=])].
    apply bind_inv in H as [(text & w2 & _ & H)|(? & _ & [=])].
    apply bind_inv in H as [(result & w3 & _ & H)|(? & _ & [=])].
    apply bind_inv in H as [(sc & w4 & Hsc & H)|(? & _ & [=])].
    apply bind_inv in H as [(g & w5 & Hg & H)|(? & _ & [=])].
    apply bind_inv in H as [(p & w6 & Hp & H)|(? & _ & [=])].
    apply bind_inv in H as [(hl & w7 & _ & H)|(? & _ & [=])].
    apply bind_inv in H as [(im & w8 & _ & H)|(? & _ & [=])].
    apply bind_inv in H as [(nt & w9 & _ & H)|(? & _ & [=])].
    apply lift_inv in Hg as [Hg _]. apply lift_inv in Hp as [Hp _].
    destruct sc as [| | | | | |d]; try discriminate.
    inversion H; subst; clear H. cbn [persona scores passed].
    simpl in Hg. inversion Hg; subst. by rewrite <- Hp.
  - destruct (decide (rubric = ∅)) as [->|Hne].
    + by rewrite evaluate_summative_offline_empty_rubric.
    + rewrite evaluate_summative_offline by done.
      intros [= <- <-]. rewrite offline_evaluation_gesamt. simpl.
      repeat split; eauto.
Qed.

(** ** The batch orchestrator *)

Section Batch.
Context {Net : Type}.
Variable openai : option (Client Net).
Variable json_loads : string -> Result value.
Variables (main_prompt : string) (rubric : gmap string Z) (turns : Z).

Local Abbreviation in_order_here :=
  (in_order openai json_loads main_prompt rubric turns).

Lemma batch_loop_in_order items :
  forall results w out w',
    batch_loop openai json_loads main_prompt rubric turns items results w
      = (Ok out, w') ->
    exists evaluations,
      out = results ++ evaluations /\ in_order_here items w evaluations w'.
Proof.
  induction items as [|[who prompt] items IH]; intros results w out w' H.
  - inversion H; subst. exists []. split; [by rewrite app_nil_r|constructor].
  - cbn [batch_loop] in H.
    returned H. returned H.
    apply IH in H as (evaluations & -> & Hrest).
    eexists (_ :: evaluations). split; [by rewrite <- app_assoc|].
    econstructor; [|done].
    unfold evaluate_persona. cbn [fst snd]. by erewrite bind_ok by done.
Qed.

Lemma batch_loop_complete items w evaluations w' :
  in_order_here items w evaluations w' ->
  forall results,
    batch_loop openai json_loads main_prompt rubric turns items results w
    = (Ok (results ++ evaluations), w').
Proof.
  induction 1 as [w|[who prompt] items w ev w1 evs w' Hev _ IH]; intros results.
  - by rewrite app_nil_r.
  - cbn [batch_loop]. unfold evaluate_persona in Hev. cbn [fst snd] in Hev.
    apply bind_inv in Hev as [(sim & w2 & Hsim & Hev)|(? & _ & [=])].
    rewrite (bind_ok _ _ _ _ _ Hsim), (bind_ok _ _ _ _ _ Hev).
    by rewrite IH, <- app_assoc.
Qed.

Lemma in_order_personas items w evaluations w' :
  in_order_here items w evaluations w' ->
  persona <$> evaluations = items.*1 /\
  length evaluations = length items.
Proof.
  induction 1 as [w|item items w ev w1 evs w' Hev _ [IH1 IH2]]; [done|].
  unfold evaluate_persona in Hev.
  apply bind_inv in Hev as [(sim & w2 & _ & Hev)|(? & _ & [=])].
  apply evaluate_summative_returned in Hev as [Hwho _].
  rewrite !fmap_cons, Hwho, IH1. split; [done|]. simpl. by rewrite IH2.
Qed.

End Batch.

Lemma evaluate_persona_offline {Net} json_loads main_prompt rubric turns item :
  rubric ≠ ∅ ->
  exists evaluation, forall w : World Net, exists calls,
    evaluate_persona None json_loads main_prompt rubric turns item w
    = (Ok evaluation, mkWorld (net w) (chat_log w ++ calls)).
Proof.
  intros Hne. unfold evaluate_persona.
  destruct (run_simulation_offline (Net:=Net) main_prompt item.2 turns
              (Some (mkParams (Some item.1) None))) as [sim Hsim].
  eexists. intros w. destruct (Hsim w) as [calls Hrun].
  rewrite (bind_ok _ _ _ _ _ Hrun).
  rewrite evaluate_summative_offline by done. by eexists.
Qed.

(** ** The repository's tests, run on the model *)

Example test_run_simulation_offline_fallback :
  exists result w',
    run_simulation offline "system" "persona" 1
      (Some (mkParams (Some "best_case") None)) w0 = (Ok result, w') /\
    sim_persona result = "best_case" /\
    transcript result <> [].
Proof. eexists _, _. split; [reflexivity|]. split; [reflexivity|discriminate]. Qed.

Example test_evaluate_offline_scores :
  exists simulation w evaluation w',
    run_simulation offline "system" "persona" 1
      (Some (mkParams (Some "weak") None)) w0 = (Ok simulation, w) /\
    evaluate_summative offline no_json (transcript simulation)
      one_category "weak" w = (Ok evaluation, w') /\
    is_Some (scores evaluation !! "gesamt").
Proof.
  eexists _, _, _, _. split; [reflexivity|]. split.
  - apply evaluate_summative_offline, insert_non_empty.
  - rewrite offline_evaluation_gesamt. by eexists.
Qed.

Example test_batch_runner_multiple_personas :
  exists results w',
    batch_runner offline no_json "system"
      [("best_case", "prompt"); ("weak", "prompt")] one_category 1 w0
      = (Ok results, w') /\
    length results = 2%nat.
Proof.
  assert (Hne : one_category ≠ ∅) by apply insert_non_empty.
  unfold batch_runner, batch_loop, offline.
  destruct (run_simulation_offline (Net:=()) "system" "prompt" 1
              (Some (mkParams (Some "best_case") None))) as [sim1 H1].
  destruct (run_simulation_offline (Net:=()) "system" "prompt" 1
              (Some (mkParams (Some "weak") None))) as [sim2 H2].
  destruct (H1 w0) as [calls1 Hrun1]. rewrite (bind_ok _ _ _ _ _ Hrun1).
  rewrite (bind_ok _ _ _ _ _
             (evaluate_summative_offline no_json _ one_category _ _ Hne)).
  destruct (H2 (mkWorld (net w0) (chat_log w0 ++ calls1))) as [calls2 Hrun2].
  rewrite (bind_ok _ _ _ _ _ Hrun2).
  rewrite (bind_ok _ _ _ _ _
             (evaluate_summative_offline no_json _ one_category _ _ Hne)).
  by eexists _, _.
Qed.

(** * The claims *)

Lemma run_simulation_zero {Net} openai main_prompt test_persona_prompt params
    (w : World Net) :
  run_simulation openai main_prompt test_persona_prompt 0 params w
  = (Ok (mkSimulationResult
           (default "unknown" (params_persona (default empty_params params)))
           []
           (mkMetadata
              (default "unknown" (params_persona (default empty_params params)))
              0)),
     w).
Proof. reflexivity. Qed.

(** C1. For every [turns >= 0], whenever [run_simulation] returns, the
    transcript has exactly [2 * turns] turns, the turn at an even index is a
    learner turn and the one after it its assistant turn, every turn is
    the text of one backend call (so neither seed turn is in it), and
    [2 * turns] backend calls were made; with [turns = 0] the transcript is
    empty and nothing at all happened. With a backend whose calls do not
    fail (the offline one always) it does return. *)
Theorem run_simulation_transcript {Net} (openai : option (Client Net))
    main_prompt test_persona_prompt turns params (w : World Net) :
  0 <= turns ->
  (forall result w',
     run_simulation openai main_prompt test_persona_prompt turns params w
       = (Ok result, w') ->
     exists calls,
       chat_log w' = chat_log w ++ calls /\
       Z.of_nat (length calls) = 2 * turns /\
       Z.of_nat (length (transcript result)) = 2 * turns /\
       (forall i turn,
          transcript result !! i = Some turn ->
          role turn = if Nat.even i then "learner" else "assistant") /\
       content <$> transcript result = call_text <$> calls /\
       (mkTurn "system" main_prompt ∉ transcript result) /\
       (turns = 0 -> transcript result = [] /\ w' = w)) /\
  (reliable openai ->
     exists result w',
       run_simulation openai main_prompt test_persona_prompt turns params w
       = (Ok result, w')).
Proof.
  intros Hturns. split.
  - intros result w' Hrun.
    destruct (run_simulation_inv _ _ _ _ _ _ _ _ Hrun)
      as (calls & Hlog & _ & Hlen & Hroles & Hcontents).
    simpl in Hroles, Hcontents.
    assert (Hlookup : forall i turn,
      transcript result !! i = Some turn ->
      role turn = if Nat.even i then "learner" else "assistant").
    { intros i turn Hi. apply (alternating_lookup (Z.to_nat turns)).
      by rewrite <- Hroles, list_lookup_fmap, Hi. }
    exists calls. repeat split; auto.
    + lia.
    + rewrite <- (length_fmap role), Hroles, alternating_length. lia.
    + intros Hin. apply list_elem_of_lookup in Hin as [i Hi].
      apply Hlookup in Hi. simpl in Hi. by destruct (Nat.even i).
    + subst turns. rewrite run_simulation_zero in Hrun. by inversion Hrun.
    + subst turns. rewrite run_simulation_zero in Hrun. by inversion Hrun.
  - intros Hrel. unfold run_simulation. cbv zeta.
    edestruct (simulation_loop_reliable openai) as ([tr hist] & w1 & Hloop);
      [done|].
    rewrite (bind_ok _ _ _ _ _ Hloop). by eexists _, _.
Qed.

Lemma run_simulation_transcript_witness :
  0 <= 2 /\
  exists result w',
    run_simulation offline "system" "persona" 2
      (Some (mkParams (Some "best_case") None)) w0 = (Ok result, w') /\
    Z.of_nat (length (transcript result)) = 2 * 2.
Proof.
  split; [lia|].
  destruct (run_simulation_transcript offline "system" "persona" 2
              (Some (mkParams (Some "best_case") None)) w0) as [Hshape Hreturns];
    [lia|].
  destruct (Hreturns I) as (result & w' & Hrun).
  exists result, w'. split; [exact Hrun|].
  destruct (Hshape result w' Hrun) as (calls & _ & _ & Hlen & _).
  exact Hlen.
Defined.

(** C8, as the code has it. When a backend call fails during
    [run_simulation], that call is the last one made (the simulation stops
    there and nothing is retried) and [run_simulation] raises that call's
    own exception, unchanged; and [run_simulation] raises nothing else. *)
Theorem run_simulation_backend_fault {Net} (openai : option (Client Net))
    main_prompt test_persona_prompt turns params (w : World Net) r w' :
  run_simulation openai main_prompt test_persona_prompt turns params w
    = (r, w') ->
  exists calls,
    chat_log w' = chat_log w ++ calls /\
    (forall i c e,
       calls !! i = Some c -> call_outcome c = Raise e ->
       r = Raise e /\ length calls = S i) /\
    (forall e,
       r = Raise e ->
       exists c, last calls = Some c /\ call_outcome c = Raise e).
Proof.
  intros Hrun.
  destruct (run_simulation_inv _ _ _ _ _ _ _ _ Hrun) as (calls & Hlog & Hout).
  exists calls. split; [done|].
  destruct r as [result|e0]; simpl in Hout.
  - destruct Hout as (Hok & _). split; [|done].
    intros i c e Hi Hc. apply (Forall_lookup_1 _ _ _ _ Hok) in Hi.
    unfold call_ok in Hi. by rewrite Hc in Hi.
  - destruct Hout as (pre & c0 & -> & Hpre & Hc0 & _). split.
    + intros i c e Hi Hc.
      destruct (decide (i < length pre)%nat) as [Hlt|Hge].
      * rewrite lookup_app_l in Hi by done.
        apply (Forall_lookup_1 _ _ _ _ Hpre) in Hi.
        unfold call_ok in Hi. by rewrite Hc in Hi.
      * rewrite lookup_app_r in Hi by lia.
        destruct (i - length pre)%nat as [|j] eqn:Hj; [|done].
        inversion Hi; subst c. rewrite Hc0 in Hc. inversion Hc; subst.
        rewrite length_app. simpl. split; [done|lia].
    + intros e [= <-]. exists c0. by rewrite last_snoc.
Qed.

Lemma run_simulation_backend_fault_witness :
  exists w',
    run_simulation (Some flaky_client) "system" "persona" 5 None
      (mkWorld 0%nat []) = (Raise (LibraryError "timeout"), w') /\
    exists calls c,
      chat_log w' = [] ++ calls /\
      last calls = Some c /\
      call_outcome c = Raise (LibraryError "timeout").
Proof.
  eexists. split; [reflexivity|].
  destruct (run_simulation_backend_fault (Some flaky_client)
              "system" "persona" 5 None (mkWorld 0%nat []) _ _ eq_refl)
    as (calls & Hlog & _ & Hraise).
  destruct (Hraise _ eq_refl) as (c & Hlast & Hc).
  exists calls, c. auto.
Defined.

(** C8 as stated fails: were the fault tagged with the persona, the
    persona could be read off it; two runs that differ in the persona
    alone raise the same exception. *)
Lemma run_simulation_fault_not_tagged :
  ~ exists tag_of : Exception -> string,
      forall who e w',
        run_simulation (Some failing_client) "system" "persona" 1
          (Some (mkParams (Some who) None)) w0 = (Raise e, w') ->
        tag_of e = who.
Proof.
  intros [tag_of Htag].
  pose proof (Htag "best_case" _ _ eq_refl) as Ha.
  pose proof (Htag "weak" _ _ eq_refl) as Hb.
  congruence.
Qed.

(** C2, as the code has it. Offline, with at least one rubric category,
    [evaluate_summative]
    returns an evaluation in which every rubric category has
    [base_score = clamp(60 + floor(L / 100), 40, 95)], [L] being the length
    of the transcript rendered one line per turn, and in which ["gesamt"]
    (the overall key) is the sum of the per-category scores divided by
    their number, truncated toward zero. For [L = 3500] every category and
    the overall key have 95; for the empty transcript the overall key has
    60 and [passed] is true. *)
Theorem evaluate_summative_offline_scores {Net} json_loads transcript rubric
    who (w : World Net) :
  rubric ≠ ∅ ->
  let L := len (combined_text transcript) in
  let base_score := clamp (60 + L / 100) 40 95 in
  let per_category : gmap string Z := (fun _ => base_score) <$> rubric in
  exists evaluation,
    evaluate_summative None json_loads transcript rubric who w
      = (Ok evaluation, w) /\
    (forall category,
       is_Some (rubric !! category) ->
       scores evaluation !! category = Some (VInt base_score)) /\
    scores evaluation !! "gesamt"
      = Some (VInt (Z.quot (sum_values per_category) (dict_len per_category))) /\
    (L = 3500 ->
     base_score = 95 /\ scores evaluation !! "gesamt" = Some (VInt 95)) /\
    (transcript = [] ->
     scores evaluation !! "gesamt" = Some (VInt 60) /\
     passed evaluation = true).
Proof.
  intros Hne L base_score per_category.
  assert (Hbase : offline_base_score transcript = base_score)
    by (apply max_min_clamp; lia).
  exists (offline_evaluation transcript rubric who).
  split; [by apply evaluate_summative_offline|].
  split; [intros category Hc; rewrite <- Hbase;
          by apply offline_evaluation_category|].
  rewrite offline_evaluation_gesamt, Hbase.
  destruct (average_of_constant base_score rubric Hne) as [Hsum Havg].
  fold per_category in Hsum, Havg.
  unfold int_truediv in Havg. destruct (decide _); [done|].
  split; [by inversion Havg as [Hq]; rewrite Hq|].
  split.
  - intros HL. assert (base_score = 95) as -> by (subst base_score; by rewrite HL).
    done.
  - intros ->. split; [|apply offline_evaluation_passed]. done.
Qed.

Lemma evaluate_summative_offline_scores_witness :
  one_category ≠ ∅ /\
  exists evaluation,
    evaluate_summative offline no_json long_transcript
      one_category "weak" w0 = (Ok evaluation, w0) /\
    scores evaluation !! "struktur_klarheit" = Some (VInt 95) /\
    scores evaluation !! "gesamt" = Some (VInt 95).
Proof.
  assert (Hne : one_category ≠ ∅) by apply insert_non_empty.
  split; [exact Hne|].
  destruct (evaluate_summative_offline_scores no_json
              long_transcript one_category "weak" w0 Hne)
    as (evaluation & Hrun & Hcat & _ & HD & _).
  exists evaluation. split; [exact Hrun|].
  assert (HL : len (combined_text long_transcript) = 3500)
    by (vm_compute; reflexivity).
  destruct (HD HL) as [Hb Hg]. split; [|exact Hg].
  rewrite <- Hb. apply Hcat. unfold one_category.
  rewrite lookup_singleton_eq. by eexists.
Defined.

(** C2 as stated fails: offline, with an empty rubric, the empty
    transcript does not yield an evaluation with overall 60 and [passed]
    true; the average over no category raises. *)
Lemma offline_scores_need_a_category :
  ~ exists evaluation w',
      evaluate_summative offline no_json [] ∅ "weak" w0
        = (Ok evaluation, w') /\
      scores evaluation !! "gesamt" = Some (VInt 60) /\
      passed evaluation = true.
Proof.
  intros (evaluation & w' & Hrun & _). unfold offline in Hrun.
  rewrite evaluate_summative_offline_empty_rubric in Hrun.
  discriminate Hrun.
Qed.

(** C10. Offline, for every transcript and every non-empty rubric, the
    overall score is the common base score
    [max(40, min(95, 60 + L // 100))], lies in [60, 95], and [passed] is
    true. *)
Theorem evaluate_summative_offline_always_passes {Net} json_loads transcript
    rubric who (w : World Net) :
  rubric ≠ ∅ ->
  exists evaluation overall,
    evaluate_summative None json_loads transcript rubric who w
      = (Ok evaluation, w) /\
    scores evaluation !! "gesamt" = Some (VInt overall) /\
    overall = Z.max 40 (Z.min 95 (60 + len (combined_text transcript) / 100)) /\
    60 <= overall <= 95 /\
    passed evaluation = true.
Proof.
  intros Hne.
  exists (offline_evaluation transcript rubric who),
         (offline_base_score transcript).
  split; [by apply evaluate_summative_offline|].
  split; [apply offline_evaluation_gesamt|].
  split; [done|].
  split; [apply offline_base_score_range|apply offline_evaluation_passed].
Qed.

Lemma evaluate_summative_offline_always_passes_witness :
  one_category ≠ ∅ /\
  exists evaluation,
    evaluate_summative offline no_json [mkTurn "learner" "hm"]
      one_category "weak" w0 = (Ok evaluation, w0) /\
    passed evaluation = true.
Proof.
  assert (Hne : one_category ≠ ∅) by apply insert_non_empty.
  split; [exact Hne|].
  destruct (evaluate_summative_offline_always_passes no_json
              [mkTurn "learner" "hm"] one_category "weak" w0 Hne)
    as (evaluation & overall & Hrun & _ & _ & _ & Hpassed).
  exists evaluation. split; [exact Hrun|exact Hpassed].
Defined.

(** C9, as the code has it. Offline, with at least one rubric category,
    [evaluate_summative] returns an evaluation for every transcript, the
    empty one included, and leaves the world as it was: no request is
    sent. *)
Theorem evaluate_summative_offline_total {Net} json_loads transcript rubric
    who (w : World Net) :
  rubric ≠ ∅ ->
  exists evaluation,
    evaluate_summative None json_loads transcript rubric who w
      = (Ok evaluation, w) /\
    evaluate_summative None json_loads [] rubric who w
      = (Ok (offline_evaluation [] rubric who), w).
Proof.
  intros Hne. exists (offline_evaluation transcript rubric who).
  split; by apply evaluate_summative_offline.
Qed.

Lemma evaluate_summative_offline_total_witness :
  one_category ≠ ∅ /\
  exists evaluation,
    evaluate_summative offline no_json [] one_category "weak" w0
      = (Ok evaluation, w0).
Proof.
  assert (Hne : one_category ≠ ∅) by apply insert_non_empty.
  split; [exact Hne|].
  destruct (evaluate_summative_offline_total no_json [] one_category "weak"
              w0 Hne) as (evaluation & Hrun & _).
  exists evaluation. exact Hrun.
Defined.

(** C9 as stated fails: offline, the evaluator does not return for every
    input; with an empty rubric it raises. *)
Lemma evaluate_summative_offline_not_total :
  ~ forall transcript rubric who,
      exists evaluation w',
        evaluate_summative offline no_json transcript rubric who w0
          = (Ok evaluation, w').
Proof.
  intros Htotal. destruct (Htotal [mkTurn "learner" "hm"] ∅ "weak")
    as (evaluation & w' & Hrun).
  unfold offline in Hrun.
  rewrite evaluate_summative_offline_empty_rubric in Hrun. discriminate.
Qed.

(** C4, as the code has it. [evaluate_summative] itself raises
    [ZeroDivisionError] on an empty rubric. The degradation to a single
    default category is the caller's: the test page passes
    [rubric_weights or {"struktur_klarheit": 20}], and on that rubric the
    offline evaluator returns an evaluation with the overall key; for an
    empty [rubric_weights] its scores are the default category and the
    overall key, both at the base score. *)
Theorem empty_rubric_degrades_at_caller {Net} json_loads transcript
    rubric_weights who (w : World Net) :
  evaluate_summative None json_loads transcript ∅ who w
    = (Raise ZeroDivisionError, w) /\
  (exists evaluation overall,
     evaluate_summative None json_loads transcript
       (rubric_or_default rubric_weights) who w = (Ok evaluation, w) /\
     scores evaluation !! "gesamt" = Some (VInt overall)) /\
  (exists evaluation,
     evaluate_summative None json_loads transcript (rubric_or_default ∅) who w
       = (Ok evaluation, w) /\
     scores evaluation
       = <["gesamt" := VInt (offline_base_score transcript)]>
           {["struktur_klarheit" := VInt (offline_base_score transcript)]}).
Proof.
  assert (Hne : forall r, rubric_or_default r ≠ ∅).
  { intros r. unfold rubric_or_default.
    destruct (decide (r = ∅)); [apply insert_non_empty|done]. }
  split; [apply evaluate_summative_offline_empty_rubric|]. split.
  - eexists _, _. split; [by apply evaluate_summative_offline|].
    apply offline_evaluation_gesamt.
  - eexists. split; [by apply evaluate_summative_offline|].
    unfold offline_evaluation, rubric_or_default. cbn [scores].
    destruct (decide (∅ = ∅)) as [_|?]; [|done].
    by rewrite map_fmap_singleton, fmap_insert, map_fmap_singleton.
Qed.

(** C4 as stated fails: offline, on an empty rubric and the empty
    transcript, the evaluator raises instead of returning. *)
Lemma evaluate_summative_empty_rubric_raises :
  evaluate_summative offline no_json [] ∅ "weak" w0
  = (Raise ZeroDivisionError, w0).
Proof. apply evaluate_summative_offline_empty_rubric. Qed.

(** C3, as the code has it. For every evaluation the evaluator returns,
    offline or live, [passed] is [scores.get("gesamt", 0) >= 60]. Offline
    the scores always hold the overall key ["gesamt"] and [passed] is
    [scores["gesamt"] >= 60]; on the live path the key is there only if
    the parsed answer has it, and without it the default 0 gives
    [passed = false] instead of a failure. *)
Theorem evaluate_summative_passed {Net} (openai : option (Client Net))
    json_loads transcript rubric who (w : World Net) evaluation w' :
  evaluate_summative openai json_loads transcript rubric who w
    = (Ok evaluation, w') ->
  value_ge_int (default (VInt 0) (scores evaluation !! "gesamt")) 60
    = Ok (passed evaluation) /\
  (openai = None ->
   exists overall,
     scores evaluation !! "gesamt" = Some (VInt overall) /\
     passed evaluation = bool_decide (60 <= overall)) /\
  (scores evaluation !! "gesamt" = None -> passed evaluation = false).
Proof.
  intros Hrun.
  apply evaluate_summative_returned in Hrun as (_ & Hpassed & Hoffline).
  split; [exact Hpassed|]. split.
  - intros Hnone. destruct (Hoffline Hnone) as [overall Hoverall].
    exists overall. split; [exact Hoverall|].
    rewrite Hoverall in Hpassed. simpl in Hpassed. by inversion Hpassed.
  - intros Hmissing. rewrite Hmissing in Hpassed. simpl in Hpassed.
    by inversion Hpassed.
Qed.

Lemma evaluate_summative_passed_witness :
  evaluate_summative (Some empty_object_client) json_loads_empty_object
    [mkTurn "learner" "hm"] one_category "weak" w0
    = (Ok unscored_evaluation, w0) /\
  value_ge_int (default (VInt 0) (scores unscored_evaluation !! "gesamt")) 60
    = Ok (passed unscored_evaluation) /\
  passed unscored_evaluation = false.
Proof.
  assert (Hrun :
    evaluate_summative (Some empty_object_client) json_loads_empty_object
      [mkTurn "learner" "hm"] one_category "weak" w0
    = (Ok unscored_evaluation, w0)) by (vm_compute; reflexivity).
  split; [exact Hrun|].
  destruct (evaluate_summative_passed (Some empty_object_client)
              json_loads_empty_object [mkTurn "learner" "hm"] one_category
              "weak" w0 _ _ Hrun) as (Hpassed & _ & Hmissing).
  split; [exact Hpassed|]. apply Hmissing. reflexivity.
Defined.

(** C3 as stated fails: on the live path an evaluation is returned whose
    scores do not hold the overall key. *)
Lemma live_evaluation_without_overall :
  evaluate_summative (Some empty_object_client) json_loads_empty_object
    [mkTurn "learner" "hm"] one_category "weak" w0
    = (Ok unscored_evaluation, w0) /\
  scores unscored_evaluation !! "gesamt" = None.
Proof. split; vm_compute; reflexivity. Qed.

(** C5, as the code has it. The offline backend returns the fixed marker
    ["[offline-response] "] followed by the first 200 characters of the
    contents of the messages with role ["user"], joined with one space
    between consecutive contents. The text depends on the messages alone,
    and the service is left untouched. *)
Theorem offline_backend_text {Net} messages temperature (w : World Net) :
  let joined := spaced (user_contents messages) in
  let text := first_chars 200 joined in
  _llm_chat None messages temperature w
    = (Ok ("[offline-response] " +:+ text),
       mkWorld (net w)
         (chat_log w ++
            [mkChatCall messages temperature
               (Ok ("[offline-response] " +:+ text))])) /\
  (exists rest, joined = text +:+ rest) /\
  String.length text = Nat.min 200 (String.length joined).
Proof.
  intros joined text. split; [|split].
  - rewrite llm_chat_offline. by rewrite offline_response_spaced.
  - apply first_chars_prefix.
  - apply first_chars_length.
Qed.

(** C5 as stated fails: with two user messages the backend's text is not
    the marker followed by the plain concatenation of their contents. *)
Lemma offline_backend_not_plain_concatenation :
  (_llm_chat offline two_users default_temperature w0).1
  <> Ok (spec_offline_stub two_users).
Proof. vm_compute. discriminate. Qed.

(** C6. Two calls of the offline backend on the same messages, whatever
    the temperatures and the worlds they run in, return the same text. *)
Theorem offline_backend_deterministic {Net1 Net2} messages
    temperature1 temperature2 (w1 : World Net1) (w2 : World Net2) :
  exists text1 text2,
    (_llm_chat None messages temperature1 w1).1 = Ok text1 /\
    (_llm_chat None messages temperature2 w2).1 = Ok text2 /\
    String.list_byte_of_string text1 = String.list_byte_of_string text2.
Proof.
  exists (offline_response messages), (offline_response messages).
  by rewrite !llm_chat_offline.
Qed.

(** C7. Whenever [batch_runner] returns, its list holds one evaluation per
    persona, the evaluation of the [i]-th persona at position [i], each
    obtained by simulating and then evaluating that persona on its own.
    Offline, with at least one rubric category, it does return, and each
    evaluation is the one its persona gets when run alone from any
    world. *)
Theorem batch_runner_in_order {Net} (openai : option (Client Net)) json_loads
    main_prompt persona_prompts rubric turns (w : World Net) :
  (forall results w',
     batch_runner openai json_loads main_prompt persona_prompts rubric turns w
       = (Ok results, w') ->
     in_order openai json_loads main_prompt rubric turns
       persona_prompts w results w' /\
     persona <$> results = persona_prompts.*1 /\
     length results = length persona_prompts) /\
  (openai = None -> rubric ≠ ∅ ->
   exists results w',
     batch_runner openai json_loads main_prompt persona_prompts rubric turns w
       = (Ok results, w') /\
     net w' = net w /\
     Forall2
       (fun item evaluation =>
          forall w1 : World Net,
            (evaluate_persona openai json_loads main_prompt rubric turns
               item w1).1 = Ok evaluation)
       persona_prompts results).
Proof.
  split.
  - intros results w' Hrun. unfold batch_runner in Hrun.
    apply batch_loop_in_order in Hrun as (evaluations & -> & Horder).
    split; [exact Horder|].
    by apply in_order_personas in Horder.
  - intros -> Hne. unfold batch_runner.
    enough (exists results w',
      in_order None json_loads main_prompt rubric turns
        persona_prompts w results w' /\
      net w' = net w /\
      Forall2
        (fun item evaluation =>
           forall w1 : World Net,
             (evaluate_persona None json_loads main_prompt rubric turns
                item w1).1 = Ok evaluation)
        persona_prompts results) as (results & w' & Horder & Hnet & Hall).
    { exists results, w'. split; [|done].
      by rewrite (batch_loop_complete _ _ _ _ _ _ _ _ _ Horder []). }
    revert w. induction persona_prompts as [|item items IH]; intros w.
    + exists [], w. repeat split; constructor.
    + destruct (evaluate_persona_offline (Net:=Net) json_loads main_prompt
                  rubric turns item Hne) as [evaluation Hev].
      destruct (Hev w) as [calls Hrun].
      destruct (IH (mkWorld (net w) (chat_log w ++ calls)))
        as (results & w' & Horder & Hnet & Hall).
      exists (evaluation :: results), w'. split; [|split].
      * by econstructor.
      * exact Hnet.
      * constructor; [|exact Hall].
        intros w1. destruct (Hev w1) as [calls1 ->]. done.
Qed.

Lemma batch_runner_in_order_witness :
  offline = None /\ one_category ≠ ∅ /\
  exists results w',
    batch_runner offline no_json "system"
      [("best_case", "p1"); ("weak", "p2")] one_category 1 w0
      = (Ok results, w') /\
    persona <$> results = ["best_case"; "weak"].
Proof.
  assert (Hne : one_category ≠ ∅) by apply insert_non_empty.
  split; [reflexivity|]. split; [exact Hne|].
  destruct (batch_runner_in_order offline no_json "system"
              [("best_case", "p1"); ("weak", "p2")] one_category 1 w0)
    as [Hshape Hreturns].
  destruct (Hreturns eq_refl Hne) as (results & w' & Hrun & _).
  exists results, w'. split; [exact Hrun|].
  destruct (Hshape results w' Hrun) as (_ & Hpersonas & _).
  exact Hpersonas.
Defined.

(** * Further properties of the harness *)

(** ** What the driver sends to the backend *)

Lemma call_prompts_lookup user_prompt k :
  forall history turns,
    (forall m,
       call_prompts user_prompt history turns !! (2 * k)%nat = Some m ->
       m = history ++ (turn_message <$> take (2 * k) turns)
             ++ [user_prompt; mkMessage "user" "<simulate>"]) /\
    (forall m,
       call_prompts user_prompt history turns !! S (2 * k) = Some m ->
       m = history ++ (turn_message <$> take (S (2 * k)) turns)).
Proof.
  induction k as [|k IH]; intros history turns.
  - destruct turns as [|l [|a turns]]; simpl; split; intros m; try done.
    + by intros [= <-].
    + by intros [= <-].
  - replace (2 * S k)%nat with (S (S (2 * k))) by lia.
    destruct turns as [|l [|a turns]]; [by split..|].
    destruct (IH (history ++ [turn_message l; turn_message a]) turns)
      as [Heven Hodd].
    split; intros m Hm; cbn [call_prompts lookup list_lookup] in Hm.
    + rewrite (Heven m Hm). cbn [take fmap list_fmap].
      by rewrite <- !app_assoc.
    + rewrite (Hodd m Hm). cbn [take fmap list_fmap].
      by rewrite <- !app_assoc.
Qed.

Section DriverPrompts.
Context {Net : Type}.
Variable openai : option (Client Net).

Lemma simulation_loop_prompts n params user_prompt :
  forall tr hist (w : World Net) tr' hist' w',
    simulation_loop openai n params user_prompt tr hist w
      = (Ok (tr', hist'), w') ->
    exists calls new,
      chat_log w' = chat_log w ++ calls /\
      tr' = tr ++ new /\
      hist' = hist ++ (turn_message <$> new) /\
      call_messages <$> calls = call_prompts user_prompt hist new /\
      Forall (fun c => call_temperature c
                = default default_temperature (params_temperature params))
             calls.
Proof.
  induction n as [|n IH]; intros tr hist w tr' hist' w' Hrun.
  - inversion Hrun; subst. exists [], []. by rewrite !app_nil_r.
  - cbn [simulation_loop] in Hrun.
    apply bind_inv in Hrun as [(a & w1 & H1 & Hrun)|(? & _ & [=])].
    apply bind_inv in Hrun as [(b & w2 & H2 & Hrun)|(? & _ & [=])].
    apply llm_chat_log in H1. apply llm_chat_log in H2.
    apply IH in Hrun as (calls & new & Hlog & -> & -> & Hprompts & Htemp).
    eexists (_ :: _ :: calls),
            (mkTurn "learner" a :: mkTurn "assistant" b :: new).
    split; [by rewrite Hlog, H2, H1, <- !app_assoc|].
    split; [by rewrite <- !app_assoc|].
    split; [by rewrite <- !app_assoc|].
    split; [|by repeat constructor].
    rewrite <- !app_assoc in Hprompts.
    rewrite !fmap_cons, Hprompts. reflexivity.
Qed.

End DriverPrompts.

(** X1. Whenever [run_simulation] returns, the messages of its backend
    calls are fixed by the transcript: the learner call of iteration [k]
    gets the two seed turns, the first [2k] transcript turns (learner
    turns under role ["user"]), the persona instruction under role
    ["system"] and the sentinel; the interviewer call gets the seed turns
    and the first [2k + 1] transcript turns, without persona instruction
    or sentinel. *)
Theorem run_simulation_prompts {Net} (openai : option (Client Net))
    main_prompt test_persona_prompt turns params (w : World Net) result w' :
  run_simulation openai main_prompt test_persona_prompt turns params w
    = (Ok result, w') ->
  exists calls,
    chat_log w' = chat_log w ++ calls /\
    forall k c,
      (calls !! (2 * k)%nat = Some c ->
       call_messages c
       = seed_history main_prompt
           ++ (turn_message <$> take (2 * k) (transcript result))
           ++ [mkMessage "system" test_persona_prompt;
               mkMessage "user" "<simulate>"]) /\
      (calls !! S (2 * k) = Some c ->
       call_messages c
       = seed_history main_prompt
           ++ (turn_message <$> take (S (2 * k)) (transcript result))).
Proof.
  unfold run_simulation. cbv zeta. intros Hrun.
  apply bind_inv in Hrun as [([tr hist] & w1 & Hloop & Hrun)|(? & _ & [=])].
  inversion Hrun; subst; clear Hrun. cbn [transcript].
  apply simulation_loop_prompts in Hloop
    as (calls & new & Hlog & -> & _ & Hprompts & _).
  exists calls. split; [done|]. intros k c.
  destruct (call_prompts_lookup (mkMessage "system" test_persona_prompt) k
              (seed_history main_prompt) new) as [Heven Hodd].
  fold (seed_history main_prompt) in Hprompts.
  rewrite app_nil_l.
  split; intros Hc; [apply Heven|apply Hodd];
    by rewrite <- Hprompts, list_lookup_fmap, Hc.
Qed.

Lemma run_simulation_prompts_witness :
  exists result w' c,
    run_simulation offline "system" "persona" 2 None w0 = (Ok result, w') /\
    chat_log w' !! 3%nat = Some c /\
    call_messages c
    = seed_history "system" ++ (turn_message <$> take 3 (transcript result)).
Proof.
  eexists _, _, _. split; [reflexivity|]. split; [reflexivity|].
  destruct (run_simulation_prompts offline "system" "persona" 2 None w0
              _ _ eq_refl) as (calls & Hlog & Hcalls).
  apply (proj2 (Hcalls 1%nat _)).
  cbn [chat_log w0 app] in Hlog. by rewrite <- Hlog.
Defined.

Lemma simulation_loop_temperature {Net} (openai : option (Client Net)) n params
    user_prompt :
  forall tr hist (w : World Net) r w',
    simulation_loop openai n params user_prompt tr hist w = (r, w') ->
    exists calls,
      chat_log w' = chat_log w ++ calls /\
      Forall (fun c => call_temperature c
                = default default_temperature (params_temperature params))
             calls.
Proof.
  induction n as [|n IH]; intros tr hist w r w' Hrun.
  - inversion Hrun; subst. exists []. by rewrite app_nil_r.
  - cbn [simulation_loop] in Hrun.
    apply bind_inv in Hrun as [(a & w1 & H1 & Hrun)|(e & H1 & ->)].
    2:{ apply llm_chat_log in H1. eexists. split; [done|].
        by repeat constructor. }
    apply llm_chat_log in H1.
    apply bind_inv in Hrun as [(b & w2 & H2 & Hrun)|(e & H2 & ->)].
    2:{ apply llm_chat_log in H2. rewrite H2, H1, <- app_assoc.
        eexists. split; [done|]. by repeat constructor. }
    apply llm_chat_log in H2.
    apply IH in Hrun as (calls & Hlog & Htemp).
    rewrite Hlog, H2, H1, <- !app_assoc.
    eexists. split; [done|]. by repeat constructor.
Qed.

(** X2. Every backend call of a run of [run_simulation], whether the run
    returns or raises, carries the same temperature: the one under
    ["temperature"] in [params], and 0.2 when [params] is absent or has no
    such key. *)
Theorem run_simulation_temperature {Net} (openai : option (Client Net))
    main_prompt test_persona_prompt turns params (w : World Net) r w' :
  run_simulation openai main_prompt test_persona_prompt turns params w
    = (r, w') ->
  exists calls,
    chat_log w' = chat_log w ++ calls /\
    forall c,
      c ∈ calls ->
      call_temperature c
      = match params with
        | Some (mkParams _ (Some temperature)) => temperature
        | _ => default_temperature
        end.
Proof.
  unfold run_simulation. cbv zeta. intros Hrun.
  assert (exists r0 w0',
    simulation_loop openai (Z.to_nat turns) (default empty_params params)
      (mkMessage "system" test_persona_prompt) []
      [mkMessage "system" main_prompt;
       mkMessage "assistant" "Hallo, willkommen."] w = (r0, w0') /\
    chat_log w0' = chat_log w') as (r0 & w0' & Hloop & Hsame).
  { apply bind_inv in Hrun as [([tr hist] & w1 & Hloop & Hrun)|(e & Hloop & _)].
    - inversion Hrun; subst. eauto.
    - eauto. }
  apply simulation_loop_temperature in Hloop as (calls & Hlog & Htemp).
  exists calls. split; [congruence|].
  intros c Hc. rewrite Forall_forall in Htemp. rewrite (Htemp c Hc).
  by destruct params as [[? [?|]]|].
Qed.

Lemma run_simulation_temperature_witness :
  exists r w',
    run_simulation (Some flaky_client) "system" "persona" 3
      (Some (mkParams None (Some (Finite (7 # 10))))) (mkWorld 0%nat [])
      = (r, w') /\
    forall c, c ∈ chat_log w' -> call_temperature c = Finite (7 # 10).
Proof.
  eexists _, _. split; [reflexivity|].
  destruct (run_simulation_temperature (Some flaky_client) "system" "persona"
              3 (Some (mkParams None (Some (Finite (7 # 10)))))
              (mkWorld 0%nat []) _ _ eq_refl) as (calls & Hlog & Htemp).
  intros c Hc. apply Htemp. cbn [chat_log app] in Hlog. by rewrite <- Hlog.
Defined.

(** X3. The result of [run_simulation] names the persona found under
    ["persona"] in [params], or ["unknown"], both as [persona] and in the
    metadata, and its metadata keeps [turns] as requested. A zero or
    negative [turns] is not refused: the run makes no backend call and
    returns the empty transcript, the metadata still holding the negative
    number. *)
Theorem run_simulation_result_identity {Net} (openai : option (Client Net))
    main_prompt test_persona_prompt turns params (w : World Net) :
  let who :=
    match params with
    | Some (mkParams (Some persona) _) => persona
    | _ => "unknown"
    end in
  (forall result w',
     run_simulation openai main_prompt test_persona_prompt turns params w
       = (Ok result, w') ->
     sim_persona result = who /\ metadata result = mkMetadata who turns) /\
  (turns <= 0 ->
   run_simulation openai main_prompt test_persona_prompt turns params w
   = (Ok (mkSimulationResult who [] (mkMetadata who turns)), w)).
Proof.
  intros who.
  assert (Hwho : default "unknown" (params_persona (default empty_params params))
                 = who) by (by destruct params as [[[?|] ?]|]).
  split.
  - unfold run_simulation. cbv zeta. intros result w' Hrun.
    apply bind_inv in Hrun as [([tr hist] & w1 & _ & Hrun)|(? & _ & [=])].
    inversion Hrun; subst; clear Hrun. by rewrite Hwho.
  - intros Hturns. unfold run_simulation. cbv zeta.
    rewrite Z2Nat.nonpos by done. by rewrite Hwho.
Qed.

Lemma run_simulation_result_identity_witness :
  (-3 <= 0) /\
  run_simulation (Some failing_client) "system" "persona" (-3) None w0
  = (Ok (mkSimulationResult "unknown" [] (mkMetadata "unknown" (-3))), w0).
Proof.
  split; [lia|].
  apply (proj2 (run_simulation_result_identity (Some failing_client)
                  "system" "persona" (-3) None w0)).
  lia.
Defined.

(** ** Offline, the prompts do not matter *)

Lemma user_contents_app l1 l2 :
  user_contents (l1 ++ l2) = user_contents l1 ++ user_contents l2.
Proof.
  induction l1 as [|m l1 IH]; [done|].
  simpl. destruct (decide _); simpl; by rewrite IH.
Qed.

Lemma offline_response_user_contents messages1 messages2 :
  user_contents messages1 = user_contents messages2 ->
  offline_response messages1 = offline_response messages2.
Proof. intros H. by rewrite !offline_response_spaced, H. Qed.

Lemma simulation_loop_offline_prompts {Net1 Net2} n params1 params2
    prompt1 prompt2 :
  forall tr hist1 hist2 (w1 : World Net1) (w2 : World Net2),
    user_contents hist1 = user_contents hist2 ->
    exists tr' hist1' hist2' w1' w2',
      simulation_loop None n params1 (mkMessage "system" prompt1) tr hist1 w1
        = (Ok (tr', hist1'), w1') /\
      simulation_loop None n params2 (mkMessage "system" prompt2) tr hist2 w2
        = (Ok (tr', hist2'), w2').
Proof.
  induction n as [|n IH]; intros tr hist1 hist2 w1 w2 Hsame.
  - by eexists _, _, _, _, _.
  - cbn [simulation_loop].
    rewrite !(bind_ok _ _ _ _ _ (llm_chat_offline _ _ _)).
    assert (Hlearner :
      offline_response
        (hist1 ++ [mkMessage "system" prompt1; mkMessage "user" "<simulate>"])
      = offline_response
          (hist2 ++ [mkMessage "system" prompt2; mkMessage "user" "<simulate>"])).
    { apply offline_response_user_contents.
      by rewrite !user_contents_app, Hsame. }
    rewrite Hlearner.
    assert (Hreply :
      offline_response (hist1 ++ [mkMessage "user" (offline_response
        (hist2 ++ [mkMessage "system" prompt2; mkMessage "user" "<simulate>"]))])
      = offline_response (hist2 ++ [mkMessage "user" (offline_response
        (hist2 ++ [mkMessage "system" prompt2; mkMessage "user" "<simulate>"]))])).
    { apply offline_response_user_contents.
      by rewrite !user_contents_app, Hsame. }
    rewrite Hreply.
    apply IH. by rewrite !user_contents_app, Hsame.
Qed.

Lemma run_simulation_offline_transcripts {Net1 Net2}
    main_prompt1 main_prompt2 persona_prompt1 persona_prompt2 turns
    params1 params2 (w1 : World Net1) (w2 : World Net2) :
  exists result1 result2 w1' w2',
    run_simulation None main_prompt1 persona_prompt1 turns params1 w1
      = (Ok result1, w1') /\
    run_simulation None main_prompt2 persona_prompt2 turns params2 w2
      = (Ok result2, w2') /\
    transcript result1 = transcript result2.
Proof.
  unfold run_simulation. cbv zeta.
  edestruct (simulation_loop_offline_prompts (Net1:=Net1) (Net2:=Net2)
               (Z.to_nat turns)
               (default empty_params params1) (default empty_params params2)
               persona_prompt1 persona_prompt2 []
               [mkMessage "system" main_prompt1;
                mkMessage "assistant" "Hallo, willkommen."]
               [mkMessage "system" main_prompt2;
                mkMessage "assistant" "Hallo, willkommen."] w1 w2)
    as (tr & h1 & h2 & w1' & w2' & Hrun1 & Hrun2); [done|].
  rewrite (bind_ok _ _ _ _ _ Hrun1), (bind_ok _ _ _ _ _ Hrun2).
  by eexists _, _, _, _.
Qed.

(** X4. Offline, the transcript of a simulation does not depend on the
    main prompt, on the persona instruction, on [params] or on the world:
    two runs with the same [turns] return the same transcript. (The
    fallback reads the ["user"] messages only, and both prompts are sent
    under role ["system"].) *)
Theorem offline_transcript_ignores_prompts {Net1 Net2}
    main_prompt1 main_prompt2 persona_prompt1 persona_prompt2 turns
    params1 params2 (w1 : World Net1) (w2 : World Net2) :
  exists result1 result2 w1' w2',
    run_simulation None main_prompt1 persona_prompt1 turns params1 w1
      = (Ok result1, w1') /\
    run_simulation None main_prompt2 persona_prompt2 turns params2 w2
      = (Ok result2, w2') /\
    transcript result1 = transcript result2.
Proof. apply run_simulation_offline_transcripts. Qed.

(** ** The offline score as a function of the transcript *)

Lemma string_length_app s1 s2 :
  String.length (s1 +:+ s2) = (String.length s1 + String.length s2)%nat.
Proof.
  induction s1 as [|c s1 IH]; [done|].
  change (String c s1 +:+ s2) with (String c (s1 +:+ s2)).
  simpl. by rewrite IH.
Qed.

Lemma combined_text_length transcript :
  String.length (combined_text transcript) = rendered_length transcript.
Proof.
  unfold combined_text, str_join.
  induction transcript as [|turn [|next transcript] IH]; [done| |].
  - cbn [fmap list_fmap String.concat rendered_length].
    rewrite !string_length_app. simpl. lia.
  - change (String.length
              ((role turn +:+ ": " +:+ content turn) +:+ newline +:+
               String.concat newline
                 ((fun turn => role turn +:+ ": " +:+ content turn)
                    <$> next :: transcript))
            = rendered_length (turn :: next :: transcript)).
    rewrite !string_length_app, IH. simpl. lia.
Qed.

Lemma rendered_length_app transcript more :
  (rendered_length transcript <= rendered_length (transcript ++ more))%nat.
Proof.
  induction transcript as [|turn [|next transcript] IH].
  - simpl. lia.
  - destruct more; simpl; lia.
  - change (rendered_length (turn :: next :: transcript))
      with (String.length (role turn) + 2 + String.length (content turn) + 1
            + rendered_length (next :: transcript))%nat.
    change (rendered_length ((turn :: next :: transcript) ++ more))
      with (String.length (role turn) + 2 + String.length (content turn) + 1
            + rendered_length ((next :: transcript) ++ more))%nat.
    lia.
Qed.

Lemma offline_base_score_rendered transcript :
  offline_base_score transcript
  = Z.min 95 (60 + Z.of_nat (rendered_length transcript) / 100).
Proof.
  unfold offline_base_score, len. rewrite combined_text_length.
  assert (0 <= Z.of_nat (rendered_length transcript) / 100)
    by (apply Z.div_pos; lia).
  lia.
Qed.

(** X5. Offline, with at least one rubric category, the overall score is
    60 plus one point for every full hundred characters of the rendered
    transcript, capped at 95; the rendering counts, for each turn, its
    role, two characters for the colon and the space, its content, and
    one newline between consecutive turns. The lower bound 40 of the
    clamp never applies. *)
Theorem offline_score_by_rendered_length {Net} json_loads transcript rubric
    who (w : World Net) :
  rubric ≠ ∅ ->
  exists evaluation,
    evaluate_summative None json_loads transcript rubric who w
      = (Ok evaluation, w) /\
    scores evaluation !! "gesamt"
      = Some (VInt (Z.min 95
                      (60 + Z.of_nat (rendered_length transcript) / 100))).
Proof.
  intros Hne. exists (offline_evaluation transcript rubric who).
  split; [by apply evaluate_summative_offline|].
  by rewrite offline_evaluation_gesamt, offline_base_score_rendered.
Qed.

Lemma offline_score_by_rendered_length_witness :
  one_category ≠ ∅ /\
  exists evaluation,
    evaluate_summative offline no_json
      [mkTurn "learner" (filler 89); mkTurn "assistant" (filler 99)]
      one_category "weak" w0 = (Ok evaluation, w0) /\
    scores evaluation !! "gesamt" = Some (VInt 62).
Proof.
  assert (Hne : one_category ≠ ∅) by apply insert_non_empty.
  split; [exact Hne|].
  destruct (offline_score_by_rendered_length no_json
              [mkTurn "learner" (filler 89); mkTurn "assistant" (filler 99)]
              one_category "weak" w0 Hne) as (evaluation & Hrun & Hscore).
  exists evaluation. split; [exact Hrun|]. exact Hscore.
Defined.

(** X6. Offline, with at least one rubric category, appending turns to a
    transcript never lowers its overall score. *)
Theorem offline_score_monotone {Net} json_loads transcript more rubric who
    (w : World Net) :
  rubric ≠ ∅ ->
  exists shorter longer overall1 overall2,
    evaluate_summative None json_loads transcript rubric who w
      = (Ok shorter, w) /\
    evaluate_summative None json_loads (transcript ++ more) rubric who w
      = (Ok longer, w) /\
    scores shorter !! "gesamt" = Some (VInt overall1) /\
    scores longer !! "gesamt" = Some (VInt overall2) /\
    overall1 <= overall2.
Proof.
  intros Hne.
  exists (offline_evaluation transcript rubric who),
         (offline_evaluation (transcript ++ more) rubric who),
         (offline_base_score transcript),
         (offline_base_score (transcript ++ more)).
  split; [by apply evaluate_summative_offline|].
  split; [by apply evaluate_summative_offline|].
  split; [apply offline_evaluation_gesamt|].
  split; [apply offline_evaluation_gesamt|].
  rewrite !offline_base_score_rendered.
  pose proof (rendered_length_app transcript more) as Hle.
  apply Z.min_le_compat_l, Zorder.Zplus_le_compat_l, Z.div_le_mono; lia.
Qed.

Lemma offline_score_monotone_witness :
  one_category ≠ ∅ /\
  exists shorter longer,
    evaluate_summative offline no_json [mkTurn "learner" "hm"]
      one_category "weak" w0 = (Ok shorter, w0) /\
    evaluate_summative offline no_json
      ([mkTurn "learner" "hm"] ++ long_transcript)
      one_category "weak" w0 = (Ok longer, w0) /\
    scores shorter !! "gesamt" = Some (VInt 60) /\
    scores longer !! "gesamt" = Some (VInt 95).
Proof.
  assert (Hne : one_category ≠ ∅) by apply insert_non_empty.
  split; [exact Hne|].
  destruct (offline_score_monotone no_json [mkTurn "learner" "hm"]
              long_transcript one_category "weak" w0 Hne)
    as (shorter & longer & o1 & o2 & H1 & H2 & _).
  exists shorter, longer. split; [exact H1|]. split; [exact H2|].
  unfold offline in H1, H2.
  rewrite evaluate_summative_offline in H1 by exact Hne.
  rewrite evaluate_summative_offline in H2 by exact Hne.
  inversion H1; inversion H2; subst.
  rewrite !offline_evaluation_gesamt. split; vm_compute; reflexivity.
Defined.

(** ** The live evaluator *)

Lemma evaluate_summative_live {Net} (lib : Client Net) json_loads transcript
    rubric who (w : World Net) :
  evaluate_summative (Some lib) json_loads transcript rubric who w
  = match request_answer lib (evaluation_request transcript) (net w) with
    | (Ok text, n) =>
        (match json_loads text with
         | Ok result => grade_answer who result
         | Raise e => Raise e
         end, mkWorld n (chat_log w))
    | (Raise e, n) => (Raise e, mkWorld n (chat_log w))
    end.
Proof.
  unfold evaluate_summative, _openai_client, request_answer,
    evaluation_request. cbv zeta.
  unfold mbind, M_bind, mret, M_ret, on_net, lift, raise.
  destruct (construct lib (net w)) as [[[]|e] n1]; [|done]. cbn [net chat_log].
  destruct (responses_create lib _ n1) as [[text|e] n2]; [|done].
  destruct (json_loads text) as [result|e]; [|done].
  destruct result as [| | | | | |d]; try done. cbn [value_get grade_answer].
  destruct (default (VDict ∅) (d !! "scores")) as [| | | | | |sc]; try done.
  cbn [value_get].
  by destruct (value_ge_int (default (VInt 0) (sc !! "gesamt")) 60).
Qed.

(** X7. On the live path a failure of the client library (its constructor
    or the request) or of [json.loads] leaves [evaluate_summative] as the
    very exception raised; no evaluation is made up in its place. *)
Theorem live_evaluation_faults_propagate {Net} (lib : Client Net) json_loads
    transcript rubric who (w : World Net) r n e :
  request_answer lib (evaluation_request transcript) (net w) = (r, n) ->
  r = Raise e \/ (exists text, r = Ok text /\ json_loads text = Raise e) ->
  evaluate_summative (Some lib) json_loads transcript rubric who w
  = (Raise e, mkWorld n (chat_log w)).
Proof.
  intros Hanswer Hfault. rewrite evaluate_summative_live, Hanswer.
  destruct Hfault as [->|(text & -> & Hparse)]; [done|]. by rewrite Hparse.
Qed.

Lemma live_evaluation_faults_propagate_witness :
  exists n,
    request_answer empty_object_client (evaluation_request long_transcript)
      (net w0) = (Ok "{}", n) /\
    no_json "{}" = Raise (LibraryError "json") /\
    evaluate_summative (Some empty_object_client) no_json long_transcript
      one_category "weak" w0
    = (Raise (LibraryError "json"), mkWorld n (chat_log w0)).
Proof.
  exists (). split; [reflexivity|]. split; [reflexivity|].
  apply (live_evaluation_faults_propagate empty_object_client no_json
           long_transcript one_category "weak" w0 (Ok "{}") ()
           (LibraryError "json") eq_refl).
  right. exists "{}". split; reflexivity.
Defined.

(** X8. On the live path an answer that parses to something other than a
    JSON object, or whose ["scores"] is present but not an object, raises
    [AttributeError]. *)
Theorem live_evaluation_not_an_object {Net} (lib : Client Net) json_loads
    transcript rubric who (w : World Net) text n result :
  request_answer lib (evaluation_request transcript) (net w) = (Ok text, n) ->
  json_loads text = Ok result ->
  (forall d, result <> VDict d) \/
  (exists d v, result = VDict d /\ d !! "scores" = Some v /\
               forall sc, v <> VDict sc) ->
  evaluate_summative (Some lib) json_loads transcript rubric who w
  = (Raise AttributeError, mkWorld n (chat_log w)).
Proof.
  intros Hanswer Hparse Hshape.
  rewrite evaluate_summative_live, Hanswer, Hparse.
  destruct Hshape as [Hnot|(d & v & -> & Hv & Hnot)].
  - destruct result; try done. by destruct (Hnot d).
  - cbn [grade_answer]. rewrite Hv. simpl.
    destruct v; try done. by destruct (Hnot d0).
Qed.

Lemma live_evaluation_not_an_object_witness :
  request_answer (constant_client "[]") (evaluation_request long_transcript)
    (net w0) = (Ok "[]", ()) /\
  json_loads_answers "[]" = Ok (VList []) /\
  evaluate_summative (Some (constant_client "[]")) json_loads_answers
    long_transcript one_category "weak" w0
  = (Raise AttributeError, mkWorld () (chat_log w0)).
Proof.
  split; [reflexivity|]. split; [reflexivity|].
  apply (live_evaluation_not_an_object (constant_client "[]")
           json_loads_answers long_transcript one_category "weak" w0
           "[]" () (VList []) eq_refl eq_refl).
  left. discriminate.
Defined.

(** X9. On the live path an overall score that is present but is not a
    number (a string such as ["85"], [null], a list or an object) raises
    [TypeError]. *)
Theorem live_evaluation_score_not_a_number {Net} (lib : Client Net)
    json_loads transcript rubric who (w : World Net) text n d sc overall :
  request_answer lib (evaluation_request transcript) (net w) = (Ok text, n) ->
  json_loads text = Ok (VDict d) ->
  d !! "scores" = Some (VDict sc) ->
  sc !! "gesamt" = Some overall ->
  (overall = VNone \/ (exists s, overall = VStr s) \/
   (exists l, overall = VList l) \/ (exists o, overall = VDict o)) ->
  evaluate_summative (Some lib) json_loads transcript rubric who w
  = (Raise TypeError, mkWorld n (chat_log w)).
Proof.
  intros Hanswer Hparse Hscores Hoverall Hkind.
  rewrite evaluate_summative_live, Hanswer, Hparse.
  cbn [grade_answer]. rewrite Hscores. simpl. rewrite Hoverall. simpl.
  by destruct Hkind as [->|[[? ->]|[[? ->]|[? ->]]]].
Qed.

Lemma live_evaluation_score_not_a_number_witness :
  request_answer (constant_client (scores_text (dq +:+ "85" +:+ dq)))
    (evaluation_request long_transcript) (net w0)
  = (Ok (scores_text (dq +:+ "85" +:+ dq)), ()) /\
  json_loads_answers (scores_text (dq +:+ "85" +:+ dq))
  = Ok (VDict {["scores" := VDict {["gesamt" := VStr "85"]}]}) /\
  evaluate_summative (Some (constant_client (scores_text (dq +:+ "85" +:+ dq))))
    json_loads_answers long_transcript one_category "weak" w0
  = (Raise TypeError, mkWorld () (chat_log w0)).
Proof.
  split; [reflexivity|]. split; [vm_compute; reflexivity|].
  apply (live_evaluation_score_not_a_number
           (constant_client (scores_text (dq +:+ "85" +:+ dq)))
           json_loads_answers long_transcript one_category "weak" w0
           (scores_text (dq +:+ "85" +:+ dq)) ()
           {["scores" := VDict {["gesamt" := VStr "85"]}]}
           {["gesamt" := VStr "85"]} (VStr "85")).
  - reflexivity.
  - vm_compute; reflexivity.
  - apply lookup_singleton_eq.
  - apply lookup_singleton_eq.
  - right. left. by exists "85".
Defined.

(** X10. On the live path, when the answer is an object whose ["scores"]
    is an object with an integer overall score, the evaluation returned
    has exactly the scores of the answer (whatever categories they name),
    [passed] is true exactly when the overall score is at least 60, and
    missing ["highlights"], ["improvements"] and ["notes"] become [[]],
    [[]] and [""]. The rubric plays no part. *)
Theorem live_evaluation_graded {Net} (lib : Client Net) json_loads transcript
    rubric who (w : World Net) text n d sc overall :
  request_answer lib (evaluation_request transcript) (net w) = (Ok text, n) ->
  json_loads text = Ok (VDict d) ->
  d !! "scores" = Some (VDict sc) ->
  sc !! "gesamt" = Some (VInt overall) ->
  evaluate_summative (Some lib) json_loads transcript rubric who w
  = (Ok (mkSummativeEvaluation who sc
           (default (VList []) (d !! "highlights"))
           (default (VList []) (d !! "improvements"))
           (default (VStr "") (d !! "notes"))
           (bool_decide (60 <= overall))),
     mkWorld n (chat_log w)).
Proof.
  intros Hanswer Hparse Hscores Hoverall.
  rewrite evaluate_summative_live, Hanswer, Hparse.
  cbn [grade_answer]. rewrite Hscores. simpl. by rewrite Hoverall.
Qed.

Lemma live_evaluation_graded_witness :
  request_answer (constant_client (scores_text "85"))
    (evaluation_request long_transcript) (net w0)
  = (Ok (scores_text "85"), ()) /\
  json_loads_answers (scores_text "85")
  = Ok (VDict {["scores" := VDict {["gesamt" := VInt 85]}]}) /\
  evaluate_summative (Some (constant_client (scores_text "85")))
    json_loads_answers long_transcript ∅ "weak" w0
  = (Ok (mkSummativeEvaluation "weak" {["gesamt" := VInt 85]}
           (VList []) (VList []) (VStr "") true),
     mkWorld () (chat_log w0)).
Proof.
  split; [reflexivity|]. split; [vm_compute; reflexivity|].
  etransitivity.
  - apply (live_evaluation_graded (constant_client (scores_text "85"))
             json_loads_answers long_transcript ∅ "weak" w0
             (scores_text "85") ()
             {["scores" := VDict {["gesamt" := VInt 85]}]}
             {["gesamt" := VInt 85]} 85).
    + reflexivity.
    + vm_compute; reflexivity.
    + apply lookup_singleton_eq.
    + apply lookup_singleton_eq.
  - vm_compute; reflexivity.
Defined.

(** ** What reaches the live service *)

Lemma messages_copied (messages : list Message) :
  (fun msg => mkMessage (msg_role msg) (msg_content msg)) <$> messages
  = messages.
Proof.
  induction messages as [|[r c] messages IH]; [done|].
  by rewrite fmap_cons, IH.
Qed.

Lemma llm_chat_recorded answer messages temperature
    (w : World (list Request)) :
  let req := mkRequest "gpt-4o-mini" messages (Some temperature) in
  _llm_chat (Some (recording_client answer)) messages temperature w
  = (answer (net w) req,
     mkWorld (net w ++ [req])
       (chat_log w ++ [mkChatCall messages temperature (answer (net w) req)])).
Proof.
  unfold _llm_chat, logged, _openai_client, recording_client.
  unfold mbind, M_bind, mret, M_ret, on_net. cbn.
  by rewrite messages_copied.
Qed.

Lemma simulation_loop_recorded answer n params user_prompt :
  forall tr hist (w : World (list Request)) r w',
    simulation_loop (Some (recording_client answer)) n params user_prompt
      tr hist w = (r, w') ->
    exists calls,
      chat_log w' = chat_log w ++ calls /\
      net w' = net w ++ (request_of_call <$> calls).
Proof.
  induction n as [|n IH]; intros tr hist w r w' Hrun.
  - inversion Hrun; subst. exists []. by rewrite !app_nil_r.
  - cbn [simulation_loop] in Hrun.
    apply bind_inv in Hrun as [(a & w1 & H1 & Hrun)|(e & H1 & ->)].
    2:{ rewrite llm_chat_recorded in H1. inversion H1; subst.
        eexists [_]. by split. }
    rewrite llm_chat_recorded in H1. inversion H1 as [[Ha Hw1]]; clear H1.
    apply bind_inv in Hrun as [(b & w2 & H2 & Hrun)|(e & H2 & ->)].
    2:{ rewrite llm_chat_recorded in H2. inversion H2; subst.
        eexists [_; _]. cbn [net chat_log]. rewrite <- !app_assoc. by split. }
    rewrite llm_chat_recorded in H2. inversion H2 as [[Hb Hw2]]; clear H2.
    apply IH in Hrun as (calls & Hlog & Hnet).
    rewrite Hlog, Hnet, <- Hw2, <- Hw1. cbn [net chat_log].
    eexists (_ :: _ :: calls). rewrite <- !app_assoc. by split.
Qed.

(** X11. On the live path every backend call of a run of
    [run_simulation] is one request to the service, in the order of the
    calls: model ["gpt-4o-mini"], the call's messages unchanged, and the
    call's temperature. Nothing else is sent. *)
Theorem live_simulation_requests answer main_prompt test_persona_prompt
    turns params (w : World (list Request)) r w' :
  run_simulation (Some (recording_client answer)) main_prompt
    test_persona_prompt turns params w = (r, w') ->
  exists calls,
    chat_log w' = chat_log w ++ calls /\
    net w' = net w ++ (request_of_call <$> calls).
Proof.
  unfold run_simulation. cbv zeta. intros Hrun.
  apply bind_inv in Hrun as [([tr hist] & w1 & Hloop & Hrun)|(e & Hloop & _)].
  - inversion Hrun; subst. by apply simulation_loop_recorded in Hloop.
  - by apply simulation_loop_recorded in Hloop.
Qed.

Lemma live_simulation_requests_witness :
  exists result w',
    run_simulation (Some (recording_client (fun _ _ => Ok "reply")))
      "system" "persona" 1 None (mkWorld [] []) = (Ok result, w') /\
    net w'
    = [mkRequest "gpt-4o-mini"
         [mkMessage "system" "system";
          mkMessage "assistant" "Hallo, willkommen.";
          mkMessage "system" "persona";
          mkMessage "user" "<simulate>"]
         (Some default_temperature);
       mkRequest "gpt-4o-mini"
         [mkMessage "system" "system";
          mkMessage "assistant" "Hallo, willkommen.";
          mkMessage "user" "reply"]
         (Some default_temperature)].
Proof.
  eexists _, _. split; [reflexivity|].
  destruct (live_simulation_requests (fun _ _ => Ok "reply")
              "system" "persona" 1 None (mkWorld [] []) _ _ eq_refl)
    as (calls & Hlog & Hnet).
  cbn [chat_log net app] in Hlog, Hnet. subst calls. exact Hnet.
Defined.

(** X12. The live evaluator sends exactly one request, whatever the
    answer and whether or not it can be parsed: the fixed instruction
    under role ["system"] and the rendered transcript under role
    ["user"], with no temperature. Neither the rubric nor the persona is
    part of it, and the backend log is left as it was. *)
Theorem live_evaluation_request answer json_loads transcript rubric who
    (w : World (list Request)) :
  (evaluate_summative (Some (recording_client answer)) json_loads transcript
     rubric who w).2
  = mkWorld
      (net w ++
         [mkRequest "gpt-4o-mini"
            [mkMessage "system"
               "Bewerte folgendes Transkript auf Basis der Rubrik.";
             mkMessage "user" (combined_text transcript)]
            None])
      (chat_log w).
Proof.
  rewrite evaluate_summative_live.
  unfold request_answer, recording_client. cbn.
  by destruct (answer (net w) (evaluation_request transcript)).
Qed.

(** ** The batch as a whole *)

Lemma evaluate_summative_log {Net} (openai : option (Client Net)) json_loads
    transcript rubric who (w : World Net) r w' :
  evaluate_summative openai json_loads transcript rubric who w = (r, w') ->
  chat_log w' = chat_log w.
Proof.
  destruct openai as [lib|].
  - rewrite evaluate_summative_live.
    destruct (request_answer lib _ (net w)) as [[text|e] n];
      by intros [= _ <-].
  - destruct (decide (rubric = ∅)) as [->|Hne].
    + rewrite evaluate_summative_offline_empty_rubric. by intros [= _ <-].
    + rewrite evaluate_summative_offline by done. by intros [= _ <-].
Qed.

Lemma evaluate_persona_calls {Net} (openai : option (Client Net)) json_loads
    main_prompt rubric turns item (w : World Net) evaluation w' :
  evaluate_persona openai json_loads main_prompt rubric turns item w
    = (Ok evaluation, w') ->
  length (chat_log w') = (length (chat_log w) + 2 * Z.to_nat turns)%nat.
Proof.
  unfold evaluate_persona. intros Hrun.
  apply bind_inv in Hrun as [(sim & w1 & Hsim & Hev)|(? & _ & [=])].
  apply run_simulation_inv in Hsim as (calls & Hlog & _ & Hlen & _).
  apply evaluate_summative_log in Hev.
  rewrite Hev, Hlog, length_app, Hlen. done.
Qed.

Lemma in_order_calls {Net} (openai : option (Client Net)) json_loads
    main_prompt rubric turns items (w : World Net) evaluations w' :
  in_order openai json_loads main_prompt rubric turns items w evaluations w' ->
  length (chat_log w')
  = (length (chat_log w) + 2 * Z.to_nat turns * length items)%nat.
Proof.
  induction 1 as [w|item items w ev w1 evs w' Hev _ IH]; [simpl; lia|].
  apply evaluate_persona_calls in Hev. cbn [length]. lia.
Qed.

Lemma run_simulation_recorded answer main_prompt test_persona_prompt
    turns params (w : World (list Request)) r w' :
  run_simulation (Some (recording_client answer)) main_prompt
    test_persona_prompt turns params w = (r, w') ->
  exists calls,
    chat_log w' = chat_log w ++ calls /\
    net w' = net w ++ (request_of_call <$> calls).
Proof.
  unfold run_simulation. cbv zeta. intros Hrun.
  apply bind_inv in Hrun as [([tr hist] & w1 & Hloop & Hrun)|(e & Hloop & _)].
  - inversion Hrun; subst. by apply simulation_loop_recorded in Hloop.
  - by apply simulation_loop_recorded in Hloop.
Qed.

Lemma evaluate_summative_recorded answer json_loads transcript rubric who
    (w : World (list Request)) r w' :
  evaluate_summative (Some (recording_client answer)) json_loads transcript
    rubric who w = (r, w') ->
  net w' = net w ++ [evaluation_request transcript].
Proof.
  rewrite evaluate_summative_live.
  unfold request_answer, recording_client. cbn.
  destruct (answer (net w) (evaluation_request transcript));
    by intros [= _ <-].
Qed.

Lemma in_order_requests answer json_loads main_prompt rubric turns items
    (w : World (list Request)) evaluations w' :
  in_order (Some (recording_client answer)) json_loads main_prompt rubric
    turns items w evaluations w' ->
  length (net w')
  = (length (net w) + (2 * Z.to_nat turns + 1) * length items)%nat.
Proof.
  induction 1 as [w|item items w ev w1 evs w' Hev _ IH]; [simpl; lia|].
  unfold evaluate_persona in Hev.
  apply bind_inv in Hev as [(sim & w2 & Hsim & Hev)|(? & _ & [=])].
  pose proof Hsim as Hshape.
  apply run_simulation_inv in Hshape as (calls & Hlog & _ & Hlen & _).
  apply run_simulation_recorded in Hsim as (calls' & Hlog' & Hnet).
  rewrite Hlog in Hlog'. apply app_inv_head in Hlog' as <-.
  apply evaluate_summative_recorded in Hev.
  rewrite IH, Hev, Hnet, !length_app, length_fmap, Hlen.
  cbn [length]. lia.
Qed.

(** X13. Whenever [batch_runner] returns ([turns >= 0]), it has called
    [_llm_chat] exactly [2 * turns] times for each persona, on either
    path: the evaluator never goes through [_llm_chat]. On the live path
    the evaluator sends a request of its own, so the service receives
    exactly [2 * turns + 1] requests for each persona (shown with a client
    that records the requests it receives). *)
Theorem batch_runner_call_count main_prompt persona_prompts rubric turns :
  0 <= turns ->
  (forall Net (openai : option (Client Net)) json_loads (w : World Net)
          results w',
     batch_runner openai json_loads main_prompt persona_prompts rubric
       turns w = (Ok results, w') ->
     Z.of_nat (length (chat_log w'))
     = Z.of_nat (length (chat_log w))
       + 2 * turns * Z.of_nat (length persona_prompts)) /\
  (forall answer json_loads (w : World (list Request)) results w',
     batch_runner (Some (recording_client answer)) json_loads main_prompt
       persona_prompts rubric turns w = (Ok results, w') ->
     Z.of_nat (length (net w'))
     = Z.of_nat (length (net w))
       + (2 * turns + 1) * Z.of_nat (length persona_prompts)).
Proof.
  intros Hturns. split.
  - intros Net openai json_loads w results w' Hrun.
    unfold batch_runner in Hrun.
    apply batch_loop_in_order in Hrun as (evaluations & _ & Horder).
    apply in_order_calls in Horder. nia.
  - intros answer json_loads w results w' Hrun.
    unfold batch_runner in Hrun.
    apply batch_loop_in_order in Hrun as (evaluations & _ & Horder).
    apply in_order_requests in Horder. nia.
Qed.

Lemma batch_runner_call_count_witness :
  0 <= 1 /\
  exists results w',
    batch_runner (Some (recording_client (fun _ _ => Ok "{}")))
      json_loads_empty_object "system"
      [("best_case", "p1"); ("weak", "p2")] one_category 1 (mkWorld [] [])
      = (Ok results, w') /\
    Z.of_nat (length (chat_log w')) = 4 /\
    Z.of_nat (length (net w')) = 6.
Proof.
  split; [lia|].
  assert (Hreturns : exists results w',
    batch_runner (Some (recording_client (fun _ _ => Ok "{}")))
      json_loads_empty_object "system"
      [("best_case", "p1"); ("weak", "p2")] one_category 1 (mkWorld [] [])
    = (Ok results, w')) by (eexists _, _; vm_compute; reflexivity).
  destruct Hreturns as (results & w' & Hrun).
  assert (H01 : 0 <= 1) by lia.
  destruct (batch_runner_call_count "system"
              [("best_case", "p1"); ("weak", "p2")] one_category 1 H01)
    as [Hcalls Hrequests].
  exists results, w'. split; [exact Hrun|]. split.
  - exact (Hcalls _ _ _ _ _ _ Hrun).
  - exact (Hrequests _ _ _ _ _ Hrun).
Defined.

Section BatchFaults.
Context {Net : Type}.
Variable openai : option (Client Net).
Variable json_loads : string -> Result value.
Variables (main_prompt : string) (rubric : gmap string Z) (turns : Z).

Lemma batch_loop_step item items results (w : World Net) :
  batch_loop openai json_loads main_prompt rubric turns (item :: items)
    results w
  = match evaluate_persona openai json_loads main_prompt rubric turns item w
    with
    | (Ok evaluation, w1) =>
        batch_loop openai json_loads main_prompt rubric turns items
          (results ++ [evaluation]) w1
    | (Raise e, w1) => (Raise e, w1)
    end.
Proof.
  destruct item as [who prompt]. cbn [batch_loop].
  unfold evaluate_persona, mbind, M_bind. cbn [fst snd].
  destruct (run_simulation openai main_prompt prompt turns _ w)
    as [[sim|e] w1]; [|done].
  by destruct (evaluate_summative openai json_loads _ rubric who w1)
    as [[ev|e] w2].
Qed.

Lemma batch_loop_raise items :
  forall results (w : World Net) e w',
    batch_loop openai json_loads main_prompt rubric turns items results w
      = (Raise e, w') <->
    exists before item after evaluations w1,
      items = before ++ item :: after /\
      in_order openai json_loads main_prompt rubric turns
        before w evaluations w1 /\
      evaluate_persona openai json_loads main_prompt rubric turns item w1
        = (Raise e, w').
Proof.
  induction items as [|item items IH]; intros results w e w'.
  - split; [done|]. intros (before & ? & ? & ? & ? & Habs & _).
    by destruct before.
  - rewrite batch_loop_step.
    destruct (evaluate_persona openai json_loads main_prompt rubric turns
                item w) as [[ev|e1] w1] eqn:Hitem.
    + rewrite IH. split.
      * intros (before & it & after & evs & w2 & -> & Horder & Hfail).
        exists (item :: before), it, after, (ev :: evs), w2.
        split; [done|]. split; [by econstructor|done].
      * intros (before & it & after & evs & w2 & Hsplit & Horder & Hfail).
        destruct before as [|first before].
        -- inversion Horder; subst. simpl in Hsplit.
           inversion Hsplit; subst. congruence.
        -- inversion Hsplit; subst. inversion Horder; subst.
           assert (w4 = w1 /\ evaluation = ev) as [-> ->]
             by (split; congruence).
           by exists before, it, after, evaluations, w2.
    + split.
      * intros [= <- <-]. exists [], item, items, [], w.
        split; [done|]. split; [constructor|done].
      * intros (before & it & after & evs & w2 & Hsplit & Horder & Hfail).
        destruct before as [|first before].
        -- inversion Horder; subst. simpl in Hsplit.
           inversion Hsplit; subst. congruence.
        -- inversion Hsplit; subst. inversion Horder; subst. congruence.
Qed.

End BatchFaults.

(** X14. [batch_runner] fails fast. It raises [e] exactly when some
    persona, run after all personas before it have been evaluated in
    order, raises [e] in its simulation or its evaluation. The exception
    is passed on unchanged, the world is the one that persona left (no
    later persona is started), and the evaluations already obtained are
    not returned. *)
Theorem batch_runner_fails_fast {Net} (openai : option (Client Net))
    json_loads main_prompt persona_prompts rubric turns (w : World Net) e w' :
  batch_runner openai json_loads main_prompt persona_prompts rubric turns w
    = (Raise e, w') <->
  exists before item after evaluations w1,
    persona_prompts = before ++ item :: after /\
    in_order openai json_loads main_prompt rubric turns
      before w evaluations w1 /\
    evaluate_persona openai json_loads main_prompt rubric turns item w1
      = (Raise e, w').
Proof. apply batch_loop_raise. Qed.

Lemma batch_runner_fails_fast_witness :
  exists w',
    batch_runner (Some flaky_client) no_json "system"
      [("best_case", "p1"); ("weak", "p2")] one_category 1 (mkWorld 0%nat [])
    = (Raise (LibraryError "timeout"), w') /\
    length (chat_log w') = 2%nat.
Proof.
  eexists. split.
  - apply (proj2 (batch_runner_fails_fast (Some flaky_client) no_json
                    "system" [("best_case", "p1"); ("weak", "p2")]
                    one_category 1 (mkWorld 0%nat []) _ _)).
    exists [], ("best_case", "p1"), [("weak", "p2")], [], (mkWorld 0%nat []).
    split; [reflexivity|]. split; [constructor|]. vm_compute. reflexivity.
  - reflexivity.
Defined.

(** X15. Offline, a batch with an empty rubric and at least one persona
    raises [ZeroDivisionError], and only after the whole simulation of
    the first persona has run: its [2 * turns] backend calls are made, no
    other persona is started, and no request is sent. *)
Theorem offline_batch_empty_rubric {Net} json_loads main_prompt item rest
    turns (w : World Net) :
  exists calls,
    batch_runner None json_loads main_prompt (item :: rest) ∅ turns w
    = (Raise ZeroDivisionError, mkWorld (net w) (chat_log w ++ calls)) /\
    length calls = (2 * Z.to_nat turns)%nat.
Proof.
  destruct (run_simulation_offline (Net:=Net) main_prompt item.2 turns
              (Some (mkParams (Some item.1) None))) as [sim Hsim].
  destruct (Hsim w) as [calls Hrun]. exists calls. split.
  - unfold batch_runner. rewrite batch_loop_step. unfold evaluate_persona.
    rewrite (bind_ok _ _ _ _ _ Hrun).
    by rewrite evaluate_summative_offline_empty_rubric.
  - apply run_simulation_inv in Hrun as (calls' & Hlog & _ & Hlen & _).
    cbn [chat_log] in Hlog. by apply app_inv_head in Hlog as ->.
Qed.

Lemma offline_batch {Net} json_loads rubric turns :
  rubric ≠ ∅ ->
  exists common : gmap string value,
    dom common = dom rubric ∪ {["gesamt"]} /\
    forall main_prompt persona_prompts (w : World Net),
      exists results w',
        in_order None json_loads main_prompt rubric turns
          persona_prompts w results w' /\
        net w' = net w /\
        Forall (fun evaluation =>
                  scores evaluation = common /\ passed evaluation = true)
               results.
Proof.
  intros Hne.
  destruct (run_simulation_offline (Net:=Net) "" "" turns None) as [r0 H0].
  exists (scores (offline_evaluation (transcript r0) rubric "")).
  split.
  { unfold offline_evaluation. cbn [scores].
    rewrite dom_fmap_L, dom_insert_L, dom_fmap_L. apply (comm_L (∪)). }
  intros main_prompt persona_prompts.
  induction persona_prompts as [|item items IH]; intros w.
  - exists [], w. split; [constructor|]. by split.
  - destruct (run_simulation_offline (Net:=Net) main_prompt item.2 turns
                (Some (mkParams (Some item.1) None))) as [r1 H1].
    destruct (H1 w) as [calls Hrun]. destruct (H0 w) as [calls0 Hrun0].
    assert (Hsame : transcript r1 = transcript r0).
    { destruct (run_simulation_offline_transcripts main_prompt ""
                  item.2 "" turns (Some (mkParams (Some item.1) None)) None
                  w w) as (x1 & x2 & ? & ? & Hx1 & Hx2 & Hx).
      rewrite Hrun in Hx1. rewrite Hrun0 in Hx2.
      inversion Hx1; inversion Hx2; by subst. }
    destruct (IH (mkWorld (net w) (chat_log w ++ calls)))
      as (results & w' & Horder & Hnet & Hall).
    exists (offline_evaluation (transcript r1) rubric item.1 :: results), w'.
    split; [|split; [exact Hnet|]].
    + econstructor; [|exact Horder]. unfold evaluate_persona.
      rewrite (bind_ok _ _ _ _ _ Hrun).
      by apply evaluate_summative_offline.
    + constructor; [|exact Hall]. split.
      * unfold offline_evaluation. cbn [scores]. by rewrite Hsame.
      * apply offline_evaluation_passed.
Qed.

(** X16. Offline, with at least one rubric category, a batch cannot tell
    personas or scenarios apart: there is one score table, fixed by
    [turns] and the rubric alone, that every evaluation of every batch
    carries, whatever the main prompt and the persona prompts, and every
    evaluation has [passed] true. No request is sent. *)
Theorem offline_batch_uniform {Net} json_loads rubric turns :
  rubric ≠ ∅ ->
  exists common : gmap string value,
    forall main_prompt persona_prompts (w : World Net),
      exists results w',
        batch_runner None json_loads main_prompt persona_prompts rubric
          turns w = (Ok results, w') /\
        net w' = net w /\
        forall evaluation,
          evaluation ∈ results ->
          scores evaluation = common /\ passed evaluation = true.
Proof.
  intros Hne. destruct (offline_batch (Net:=Net) json_loads rubric turns Hne)
    as (common & _ & Hcommon).
  exists common. intros main_prompt persona_prompts w.
  destruct (Hcommon main_prompt persona_prompts w)
    as (results & w' & Horder & Hnet & Hall).
  exists results, w'. split; [|split; [exact Hnet|]].
  - unfold batch_runner.
    by rewrite (batch_loop_complete _ _ _ _ _ _ _ _ _ Horder []).
  - by apply Forall_forall.
Qed.

Lemma offline_batch_uniform_witness :
  one_category ≠ ∅ /\
  exists results1 results2 w1 w2 first second,
    batch_runner offline no_json "system" [("best_case", "p1")]
      one_category 2 w0 = (Ok results1, w1) /\
    batch_runner offline no_json "another scenario" [("weak", "p2")]
      one_category 2 w0 = (Ok results2, w2) /\
    results1 = [first] /\ results2 = [second] /\
    scores first = scores second.
Proof.
  assert (Hne : one_category ≠ ∅) by apply insert_non_empty.
  split; [exact Hne|].
  destruct (offline_batch_uniform (Net:=()) no_json one_category 2 Hne)
    as [common Hcommon].
  destruct (Hcommon "system" [("best_case", "p1")] w0)
    as (results1 & w1 & Hrun1 & _ & Hall1).
  destruct (Hcommon "another scenario" [("weak", "p2")] w0)
    as (results2 & w2 & Hrun2 & _ & Hall2).
  assert (Hlen1 : length results1 = 1%nat).
  { pose proof Hrun1 as H. unfold batch_runner in H.
    apply batch_loop_in_order in H as (evs & -> & Ho).
    apply in_order_personas in Ho as [_ Hl]. exact Hl. }
  assert (Hlen2 : length results2 = 1%nat).
  { pose proof Hrun2 as H. unfold batch_runner in H.
    apply batch_loop_in_order in H as (evs & -> & Ho).
    apply in_order_personas in Ho as [_ Hl]. exact Hl. }
  destruct results1 as [|first [|]]; try discriminate Hlen1.
  destruct results2 as [|second [|]]; try discriminate Hlen2.
  exists [first], [second], w1, w2, first, second.
  split; [exact Hrun1|]. split; [exact Hrun2|]. split; [done|]. split; [done|].
  destruct (Hall1 first) as [-> _]; [by left|].
  destruct (Hall2 second) as [-> _]; [by left|]. done.
Defined.

(** X17. Offline, the weights of the rubric are never used: two rubrics
    with the same categories give the same outcome, and the scores of a
    returned evaluation have exactly the rubric's categories and
    ["gesamt"] as keys. *)
Theorem offline_weights_ignored {Net} json_loads transcript rubric1 rubric2
    who (w : World Net) :
  dom rubric1 = dom rubric2 ->
  evaluate_summative None json_loads transcript rubric1 who w
  = evaluate_summative None json_loads transcript rubric2 who w /\
  forall evaluation w',
    evaluate_summative None json_loads transcript rubric1 who w
      = (Ok evaluation, w') ->
    dom (scores evaluation) = dom rubric1 ∪ {["gesamt"]}.
Proof.
  intros Hdom. destruct (decide (rubric1 = ∅)) as [->|Hne1].
  - rewrite dom_empty_L in Hdom. symmetry in Hdom.
    apply dom_empty_iff_L in Hdom as ->.
    split; [done|]. intros evaluation w'.
    by rewrite evaluate_summative_offline_empty_rubric.
  - assert (Hne2 : rubric2 ≠ ∅).
    { intros ->. rewrite dom_empty_L in Hdom.
      by apply dom_empty_iff_L in Hdom. }
    rewrite !evaluate_summative_offline by done. split.
    + do 2 f_equal. unfold offline_evaluation. do 3 f_equal.
      apply map_eq. intros k. rewrite !lookup_fmap.
      destruct (rubric1 !! k) as [v1|] eqn:H1.
      * assert (k ∈ dom rubric2) as [v2 ->]%elem_of_dom
          by (rewrite <- Hdom; apply elem_of_dom; eauto).
        done.
      * assert (k ∉ dom rubric2) as ->%not_elem_of_dom
          by (rewrite <- Hdom; by apply not_elem_of_dom).
        done.
    + intros evaluation w' [= <- _]. unfold offline_evaluation. cbn [scores].
      rewrite dom_fmap_L, dom_insert_L, dom_fmap_L. apply (comm_L (∪)).
Qed.

Lemma offline_weights_ignored_witness :
  dom one_category = dom ({["struktur_klarheit" := 95]} : gmap string Z) /\
  evaluate_summative offline no_json long_transcript one_category "weak" w0
  = evaluate_summative offline no_json long_transcript
      {["struktur_klarheit" := 95]} "weak" w0.
Proof.
  assert (Hdom : dom one_category
                 = dom ({["struktur_klarheit" := 95]} : gmap string Z))
    by (unfold one_category; by rewrite !dom_singleton_L).
  split; [exact Hdom|].
  exact (proj1 (offline_weights_ignored no_json long_transcript one_category
                  {["struktur_klarheit" := 95]} "weak" w0 Hdom)).
Defined.

(** ** The callers *)

Lemma sum_values_bounds lo hi (m : gmap string Z) :
  (forall k v, m !! k = Some v -> lo <= v <= hi) ->
  lo * Z.of_nat (size m) <= sum_values m <= hi * Z.of_nat (size m).
Proof.
  unfold sum_values.
  induction m as [|k v m Hk IH] using map_ind; intros Hall.
  - rewrite map_fold_empty, map_size_empty. lia.
  - rewrite map_fold_insert_L; [|intros; lia|done].
    rewrite map_size_insert_None by done.
    assert (lo <= v <= hi) by (apply (Hall k); by rewrite lookup_insert_eq).
    assert (lo * Z.of_nat (size m)
            <= map_fold (fun _ v acc => v + acc) 0 m
            <= hi * Z.of_nat (size m)).
    { apply IH. intros j u Hj. apply (Hall j).
      rewrite lookup_insert_ne; [done|]. intros ->. congruence. }
    lia.
Qed.

Lemma rubric_or_default_nonempty rubric_weights :
  rubric_or_default rubric_weights ≠ ∅.
Proof.
  unfold rubric_or_default.
  destruct (decide (rubric_weights = ∅)); [apply insert_non_empty|done].
Qed.

(** X18. The test page completes the parsed weights without touching
    them: every parsed entry is kept and no other key than ["gesamt"] is
    added. When there is at least one entry, the result has a ["gesamt"]
    weight: the parsed one if there is one, and else the floor of the
    average of the weights, that is the integer [g] with
    [g * n <= sum < (g + 1) * n] for [n] weights of sum [sum], which lies
    between the smallest and the largest of them. The rubric handed on to
    [batch_runner] is never empty: for no parsed weight at all it is the
    single default category. *)
Theorem add_gesamt_weight_completes rubric_weights lo hi :
  (forall k v, rubric_weights !! k = Some v -> lo <= v <= hi) ->
  (forall k v,
     rubric_weights !! k = Some v ->
     add_gesamt_weight rubric_weights !! k = Some v) /\
  (rubric_weights ≠ ∅ ->
   exists g,
     add_gesamt_weight rubric_weights !! "gesamt" = Some g /\ lo <= g <= hi) /\
  rubric_or_default (add_gesamt_weight rubric_weights) ≠ ∅ /\
  (rubric_weights = ∅ ->
   rubric_or_default (add_gesamt_weight rubric_weights)
   = {["struktur_klarheit" := 20]}) /\
  (forall k,
     k ≠ "gesamt" ->
     add_gesamt_weight rubric_weights !! k = rubric_weights !! k) /\
  (forall g,
     rubric_weights !! "gesamt" = Some g ->
     add_gesamt_weight rubric_weights = rubric_weights) /\
  (rubric_weights ≠ ∅ -> rubric_weights !! "gesamt" = None ->
   exists g,
     add_gesamt_weight rubric_weights !! "gesamt" = Some g /\
     g = sum_values rubric_weights / dict_len rubric_weights /\
     g * dict_len rubric_weights <= sum_values rubric_weights
       < (g + 1) * dict_len rubric_weights).
Proof.
  intros Hall. unfold add_gesamt_weight.
  split; [|split; [|split; [apply rubric_or_default_nonempty|]]].
  - intros k v Hk.
    destruct (bool_decide_reflect (rubric_weights !! "gesamt" = None))
      as [Hnone|Hsome]; [|done].
    destruct (bool_decide (rubric_weights ≠ ∅)); [|done]. cbn [andb].
    rewrite lookup_insert_ne; [done|]. intros <-. congruence.
  - intros Hne.
    destruct (bool_decide_reflect (rubric_weights !! "gesamt" = None))
      as [Hnone|Hsome].
    + rewrite bool_decide_eq_true_2 by done. cbn [andb].
      eexists. split; [apply lookup_insert_eq|].
      pose proof (sum_values_bounds lo hi rubric_weights Hall) as Hsum.
      assert (0 < dict_len rubric_weights).
      { unfold dict_len.
        assert (size rubric_weights ≠ 0%nat)
          by (by rewrite map_size_non_empty_iff).
        lia. }
      unfold dict_len in *. split.
      * apply Z.div_le_lower_bound; lia.
      * apply Z.div_le_upper_bound; lia.
    + cbn [andb]. destruct (rubric_weights !! "gesamt") as [g|] eqn:Hg; [|done].
      exists g. split; [done|]. by apply (Hall "gesamt").
  - split; [|split; [|split]].
    + intros ->.
      rewrite (bool_decide_eq_false_2 (∅ ≠@{gmap string Z} ∅))
        by (intros H; by apply H).
      rewrite andb_false_r. unfold rubric_or_default.
      by destruct (decide (∅ = ∅)).
    + intros k Hk.
      destruct (bool_decide (rubric_weights !! "gesamt" = None)
                && bool_decide (rubric_weights ≠ ∅)); [|done].
      by rewrite lookup_insert_ne.
    + intros g Hg. rewrite bool_decide_eq_false_2 by congruence. done.
    + intros Hne Hnone. rewrite !bool_decide_eq_true_2 by done. cbn [andb].
      eexists. split; [apply lookup_insert_eq|]. split; [done|].
      assert (0 < dict_len rubric_weights).
      { unfold dict_len.
        assert (size rubric_weights ≠ 0%nat)
          by (by rewrite map_size_non_empty_iff).
        lia. }
      pose proof (Z.mul_div_le (sum_values rubric_weights)
                    (dict_len rubric_weights) ltac:(lia)).
      pose proof (Z.mul_succ_div_gt (sum_values rubric_weights)
                    (dict_len rubric_weights) ltac:(lia)).
      lia.
Qed.

Lemma add_gesamt_weight_completes_witness :
  (forall k v,
     ({["struktur" := 10; "beispiele" := 25]} : gmap string Z) !! k = Some v ->
     10 <= v <= 25) /\
  ({["struktur" := 10; "beispiele" := 25]} : gmap string Z) ≠ ∅ /\
  ({["struktur" := 10; "beispiele" := 25]} : gmap string Z) !! "gesamt"
    = None /\
  sum_values {["struktur" := 10; "beispiele" := 25]} = 35 /\
  dict_len {["struktur" := 10; "beispiele" := 25]} = 2 /\
  add_gesamt_weight {["struktur" := 10; "beispiele" := 25]} !! "gesamt"
  = Some 17.
Proof.
  assert (Hall : forall k v,
    ({["struktur" := 10; "beispiele" := 25]} : gmap string Z) !! k = Some v ->
    10 <= v <= 25).
  { intros k v Hk.
    destruct (decide (k = "struktur")) as [->|?];
      [rewrite lookup_insert_eq in Hk; inversion Hk; lia|].
    rewrite lookup_insert_ne in Hk by done.
    destruct (decide (k = "beispiele")) as [->|?];
      [rewrite lookup_singleton_eq in Hk; inversion Hk; lia|].
    by rewrite lookup_singleton_ne in Hk. }
  assert (Hne : ({["struktur" := 10; "beispiele" := 25]} : gmap string Z) ≠ ∅)
    by apply insert_non_empty.
  assert (Hnone :
    ({["struktur" := 10; "beispiele" := 25]} : gmap string Z) !! "gesamt"
    = None) by (vm_compute; reflexivity).
  assert (Hsum : sum_values {["struktur" := 10; "beispiele" := 25]} = 35)
    by (vm_compute; reflexivity).
  assert (Hlen : dict_len {["struktur" := 10; "beispiele" := 25]} = 2)
    by (vm_compute; reflexivity).
  split; [exact Hall|]. split; [exact Hne|]. split; [exact Hnone|].
  split; [exact Hsum|]. split; [exact Hlen|].
  destruct (add_gesamt_weight_completes _ 10 25 Hall)
    as (_ & _ & _ & _ & _ & _ & Havg).
  destruct (Havg Hne Hnone) as (g & Hg & -> & _).
  rewrite Hg, Hsum, Hlen. reflexivity.
Defined.

(** X19. Offline, the batch of the test page never raises, whatever
    weights were parsed from the success criteria, even none: it returns
    one evaluation for each of the five standard personas, in the order
    of [PERSONAS], every one with [passed] true, and sends no request. *)
Theorem test_page_offline {Net} json_loads main_prompt rubric_weights
    (w : World Net) :
  exists results w',
    page_automated_tests_run None json_loads main_prompt rubric_weights w
      = (Ok results, w') /\
    persona <$> results
      = ["best_case"; "weak"; "zero_knowledge"; "off_topic"; "trolling"] /\
    net w' = net w /\
    forall evaluation, evaluation ∈ results -> passed evaluation = true.
Proof.
  destruct (offline_batch (Net:=Net) json_loads
              (rubric_or_default (add_gesamt_weight rubric_weights)) 8
              (rubric_or_default_nonempty _)) as (common & _ & Hcommon).
  destruct (Hcommon main_prompt persona_map w)
    as (results & w' & Horder & Hnet & Hall).
  exists results, w'. split; [|split; [|split; [exact Hnet|]]].
  - unfold page_automated_tests_run, batch_runner.
    by rewrite (batch_loop_complete _ _ _ _ _ _ _ _ _ Horder []).
  - by apply in_order_personas in Horder as [-> _].
  - intros evaluation Hin. rewrite Forall_forall in Hall.
    by destruct (Hall evaluation Hin).
Qed.

Lemma test_page_offline_witness :
  exists results w',
    page_automated_tests_run offline no_json "system" ∅ w0
      = (Ok results, w') /\
    length results = 5%nat.
Proof.
  destruct (test_page_offline (Net:=()) no_json "system" ∅ w0)
    as (results & w' & Hrun & Hpersonas & _).
  exists results, w'. split; [exact Hrun|].
  by rewrite <- (length_fmap persona), Hpersonas.
Defined.

(** X20. Offline, the batch the CI page runs for a scenario returns
    three evaluations, for [best_case], [weak] and [zero_knowledge] in
    that order, every one with [passed] true and with scores for the five
    rubric categories and ["gesamt"], whatever the main prompt and the
    number of turns: offline the regression cannot fail. *)
Theorem ci_regression_offline {Net} json_loads main_prompt turns
    (w : World Net) :
  exists results w',
    ci_regression_run None json_loads main_prompt turns w
      = (Ok results, w') /\
    persona <$> results = ["best_case"; "weak"; "zero_knowledge"] /\
    forall evaluation,
      evaluation ∈ results ->
      passed evaluation = true /\
      dom (scores evaluation)
      = {["struktur_klarheit"; "passung_beispiele"; "fachliche_korrektheit";
          "kommunikation"; "reflexion"; "gesamt"]}.
Proof.
  assert (Hne : ci_rubric ≠ ∅) by apply insert_non_empty.
  destruct (offline_batch (Net:=Net) json_loads ci_rubric turns Hne)
    as (common & Hdom & Hcommon).
  destruct (Hcommon main_prompt _persona_prompts w)
    as (results & w' & Horder & _ & Hall).
  exists results, w'. split; [|split].
  - unfold ci_regression_run, batch_runner.
    by rewrite (batch_loop_complete _ _ _ _ _ _ _ _ _ Horder []).
  - by apply in_order_personas in Horder as [-> _].
  - intros evaluation Hin. rewrite Forall_forall in Hall.
    destruct (Hall evaluation Hin) as [-> ->]. split; [done|].
    rewrite Hdom. unfold ci_rubric.
    rewrite !dom_insert_L, dom_singleton_L. set_solver.
Qed.

Lemma ci_regression_offline_witness :
  exists results w',
    ci_regression_run offline no_json "system" 2 w0 = (Ok results, w') /\
    length results = 3%nat.
Proof.
  destruct (ci_regression_offline (Net:=()) no_json "system" 2 w0)
    as (results & w' & Hrun & Hpersonas & _).
  exists results, w'. split; [exact Hrun|].
  by rewrite <- (length_fmap persona), Hpersonas.
Defined.
